(** * The triage-ai edge function (src/index.ts)

    A shallow embedding of the HTTP handler of src/index.ts and of the part of
    the JavaScript runtime it relies on: JSON values, truthiness, string
    conversion in template literals, property access with and without
    optional chaining, [Array.prototype.join], [String.prototype.includes],
    [String.prototype.endsWith] and [btoa].

    Modelling conventions.
    - A JavaScript string is a [string] of 8-bit characters; the source text
      is embedded with the bytes it has on disk.
    - A JavaScript number is an integer [Z] (no fraction, no NaN, printed in
      plain decimal, which is what the runtime prints below 10^21).
    - Exceptions are an error type ([Throw]); the three collaborators of the
      service (AI gateway, object storage, relational store) are oracles in a
      [world] record and every call to them is recorded in a trace of
      [event]s.  The record also holds the number of arguments the runtime
      accepts in one call, which bounds the files that can be encoded.
    - [JSON.parse] is a built-in of the runtime, not code of the repository:
      it is a parameter of the development. *)

From Stdlib Require Import ZArith List Bool Lia.
From Stdlib Require Import Strings.String Strings.Ascii Numbers.DecimalString.
Import ListNotations.
Open Scope Z_scope.
Open Scope string_scope.

Set Implicit Arguments.
Set Warnings "-register-all".

(** ** JavaScript values *)

Module Js.

Inductive value : Type :=
| VUndefined
| VNull
| VBool (b : bool)
| VNum (n : Z)
| VStr (s : string)
| VArr (elems : list value)
| VObj (fields : list (string * value)).

(** What a [throw] carries.  Every error of this program is an object whose
    [message] is a string ([new Error(..)], the runtime's TypeError and
    SyntaxError, the storage client's error) or has none. *)
Record exn : Type := Exn { message : option string }.

Definition Error (msg : string) : exn := Exn (Some msg).
Definition TypeError (msg : string) : exn := Exn (Some msg).

Inductive outcome (A : Type) : Type :=
| Ok (a : A)
| Throw (e : exn).
Arguments Ok {A} a.
Arguments Throw {A} e.

Definition obind {A B} (m : outcome A) (k : A -> outcome B) : outcome B :=
  match m with
  | Ok a => k a
  | Throw e => Throw e
  end.

Declare Scope js_scope.
Delimit Scope js_scope with js.
Notation "x <~ m ;; k" := (obind m (fun x => k))
  (at level 61, m at next level, right associativity) : js_scope.
Open Scope js_scope.

Definition nl : string := String "010" "".

Definition Z_to_string (z : Z) : string := NilZero.string_of_int (Z.to_int z).

(** ToBoolean *)
Definition truthy (v : value) : bool :=
  match v with
  | VUndefined | VNull => false
  | VBool b => b
  | VNum n => negb (Z.eqb n 0)
  | VStr s => negb (String.eqb s "")
  | VArr _ | VObj _ => true
  end.

Definition nullish (v : value) : bool :=
  match v with
  | VUndefined | VNull => true
  | _ => false
  end.

Fixpoint lookup (k : string) (fields : list (string * value)) : option value :=
  match fields with
  | [] => None
  | (k', v) :: rest => if String.eqb k k' then Some v else lookup k rest
  end.

Definition has_own (k : string) (fields : list (string * value)) : bool :=
  match lookup k fields with Some _ => true | None => false end.

(** [Array.prototype.join], over the string conversion [conv] of one
    element: undefined and null elements print as the empty string. *)
Definition join_by (conv : value -> outcome string) (sep : string)
  : list value -> outcome string :=
  fix go (l : list value) : outcome string :=
    match l with
    | [] => Ok ""
    | x :: rest =>
        s <~ (if nullish x then Ok "" else conv x) ;;
        match rest with
        | [] => Ok s
        | _ :: _ => r <~ go rest ;; Ok (s ++ sep ++ r)
        end
    end.

(** ToString, as a template literal applies it.  An object parsed from JSON
    has no callable property: one with an own [toString] key cannot be
    converted, the others print through [Object.prototype.toString]. *)
Fixpoint ToString (v : value) : outcome string :=
  match v with
  | VUndefined => Ok "undefined"
  | VNull => Ok "null"
  | VBool true => Ok "true"
  | VBool false => Ok "false"
  | VNum n => Ok (Z_to_string n)
  | VStr s => Ok s
  | VArr l => join_by ToString "," l
  | VObj fields =>
      if has_own "toString" fields
      then Throw (TypeError "Cannot convert object to primitive value")
      else Ok "[object Object]"
  end.

Definition join (sep : string) (l : list value) : outcome string :=
  join_by ToString sep l.

Definition typeName (v : value) : string :=
  match v with VNull => "null" | _ => "undefined" end.

(** [v.k] for a value that is neither undefined nor null, and for the
    property names this program reads (none of them is on
    [Object.prototype]). *)
Definition prop (v : value) (k : string) : value :=
  match v with
  | VObj fields =>
      match lookup k fields with Some x => x | None => VUndefined end
  | VArr l => if String.eqb k "length" then VNum (Z.of_nat (List.length l)) else VUndefined
  | VStr s => if String.eqb k "length" then VNum (Z.of_nat (String.length s)) else VUndefined
  | _ => VUndefined
  end.

(** [v.k] *)
Definition get_prop (v : value) (k : string) : outcome value :=
  if nullish v
  then Throw (TypeError ("Cannot read properties of " ++ typeName v
                           ++ " (reading '" ++ k ++ "')"))
  else Ok (prop v k).

(** [v?.k] *)
Definition opt_prop (v : value) (k : string) : value :=
  if nullish v then VUndefined else prop v k.

(** [v[i]] for a value that is neither undefined nor null. *)
Definition index (v : value) (i : nat) : value :=
  match v with
  | VArr l => nth i l VUndefined
  | VStr s =>
      match String.get i s with
      | Some c => VStr (String c "")
      | None => VUndefined
      end
  | VObj fields =>
      match lookup (Z_to_string (Z.of_nat i)) fields with
      | Some x => x
      | None => VUndefined
      end
  | _ => VUndefined
  end.

(** [v?.[i]] *)
Definition opt_index (v : value) (i : nat) : value :=
  if nullish v then VUndefined else index v i.

(** [recv.join(sep)] where [recv] is the value of the source expression
    [src]: only an array has a callable [join]. *)
Definition call_join (src : string) (recv : value) (sep : string)
  : outcome string :=
  match recv with
  | VArr l => join sep l
  | VUndefined | VNull =>
      Throw (TypeError ("Cannot read properties of " ++ typeName recv
                          ++ " (reading 'join')"))
  | _ => Throw (TypeError (src ++ ".join is not a function"))
  end.

(** [String.prototype.includes] *)
Fixpoint includes (s sub : string) : bool :=
  prefix sub s
  || match s with
     | EmptyString => false
     | String _ s' => includes s' sub
     end.

(** [String.prototype.endsWith]: the last [length suffix] characters. *)
Definition endsWith (s suffix : string) : bool :=
  let n := String.length s in
  let m := String.length suffix in
  Nat.leb m n && String.eqb (substring (n - m) m s) suffix.

(** [recv.endsWith(suffix)] where [recv] is the value of the source
    expression [src]. *)
Definition call_endsWith (src : string) (recv : value) (suffix : string)
  : outcome bool :=
  match recv with
  | VStr s => Ok (endsWith s suffix)
  | VUndefined | VNull =>
      Throw (TypeError ("Cannot read properties of " ++ typeName recv
                          ++ " (reading 'endsWith')"))
  | _ => Throw (TypeError (src ++ ".endsWith is not a function"))
  end.

(** [a || b] *)
Definition or_else (a b : value) : value := if truthy a then a else b.

End Js.

Import Js.

(** ** [btoa]: base64 of a string of bytes *)

Definition b64_alphabet : string :=
  "ABCDEFGHIJKLMNOPQRSTUVWXYZabcdefghijklmnopqrstuvwxyz0123456789+/".

Definition b64_char (n : N) : string :=
  match String.get (N.to_nat n) b64_alphabet with
  | Some c => String c ""
  | None => ""
  end.

Fixpoint btoa (s : string) : string :=
  match s with
  | EmptyString => ""
  | String a EmptyString =>
      let x := N_of_ascii a in
      b64_char (N.shiftr x 2)
      ++ b64_char (N.shiftl (N.land x 3) 4) ++ "=="
  | String a (String b EmptyString) =>
      let x := N_of_ascii a in
      let y := N_of_ascii b in
      b64_char (N.shiftr x 2)
      ++ b64_char (N.lor (N.shiftl (N.land x 3) 4) (N.shiftr y 4))
      ++ b64_char (N.shiftl (N.land y 15) 2) ++ "="
  | String a (String b (String c rest)) =>
      let x := N_of_ascii a in
      let y := N_of_ascii b in
      let z := N_of_ascii c in
      b64_char (N.shiftr x 2)
      ++ b64_char (N.lor (N.shiftl (N.land x 3) 4) (N.shiftr y 4))
      ++ b64_char (N.lor (N.shiftl (N.land y 15) 2) (N.shiftr z 6))
      ++ b64_char (N.land z 63) ++ btoa rest
  end.

(** ** The collaborators and the trace of calls to them *)

(** The argument of [fetch]; [body] is the object handed to
    [JSON.stringify]. *)
Record fetch_request : Type := FetchRequest {
  url : string;
  method : string;
  headers : list (string * string);
  body : value
}.

(** What [fetch] resolves to: the status line and the body text, which
    [response.text()] returns and [response.json()] parses. *)
Record http_response : Type := HttpResponse {
  status : Z;
  text : string
}.

(** [response.ok] *)
Definition ok (r : http_response) : bool :=
  (200 <=? status r)%Z && (status r <=? 299)%Z.

Inductive event : Type :=
| EFetch (req : fetch_request)
| EDownload (bucket : string) (path : value)
| EInsert (table : string) (rows : list value)
| EConsoleAI (status : Z) (text : string)
| EConsoleError (e : exn).

Definition network (ev : event) : bool :=
  match ev with
  | EFetch _ | EDownload _ _ | EInsert _ _ => true
  | EConsoleAI _ _ | EConsoleError _ => false
  end.

Record world : Type := World {
  LOVABLE_API_KEY : string;
  (** the largest number of arguments the runtime accepts in one call; it
      depends on the engine and on the stack that is left *)
  max_arguments : N;
  (** [fetch(url, init)]: a rejection or a response *)
  fetch : fetch_request -> exn + http_response;
  (** [supabase.storage.from(bucket).download(path)]: [{data, error}] with
      exactly one of the two set; the data is the file's bytes *)
  storage_download : string -> value -> exn + string;
  (** [supabase.from(table).insert(rows)]: the [error] of the result *)
  db_insert : string -> list value -> option exn
}.

Definition RangeError (msg : string) : exn := Exn (Some msg).

(** Whether the runtime accepts one call argument per byte of [bytes]. *)
Definition fits (w : world) (bytes : string) : bool :=
  (N.of_nat (String.length bytes) <=? max_arguments w)%N.

(** [String.fromCharCode(...new Uint8Array(bytes))]: the spread passes one
    argument per byte, and the call throws when they are more than the
    runtime accepts; otherwise the string has the bytes as its characters. *)
Definition fromCharCode_spread (w : world) (bytes : string) : outcome string :=
  if fits w bytes then Ok bytes
  else Throw (RangeError "Maximum call stack size exceeded").

(** ** The tool definitions sent to the model *)

Definition strings (l : list string) : value := VArr (map VStr l).
Definition typed (t : string) : value := VObj [("type", VStr t)].
Definition described (t d : string) : value :=
  VObj [("type", VStr t); ("description", VStr d)].
Definition enum (t : string) (l : list string) : value :=
  VObj [("type", VStr t); ("enum", strings l)].
Definition array_of (items : value) : value :=
  VObj [("type", VStr "array"); ("items", items)].
Definition function_tool (name description : string) (parameters : value)
  : value :=
  VObj [("type", VStr "function");
        ("function", VObj [("name", VStr name);
                           ("description", VStr description);
                           ("parameters", parameters)])].
Definition forced (name : string) : value :=
  VObj [("type", VStr "function"); ("function", VObj [("name", VStr name)])].

Definition triage_tools : value :=
  VArr [function_tool "triage_result"
    "Return the triage classification result for a patient."
    (VObj [("type", VStr "object");
           ("properties", VObj [
              ("risk_level", enum "string" ["Low"; "Medium"; "High"]);
              ("confidence_score", described "number" "Confidence percentage 0-100");
              ("recommended_department",
               enum "string" ["Emergency"; "Cardiology"; "Neurology";
                              "General Medicine"; "Pulmonology";
                              "Gastroenterology"; "Orthopedics";
                              "Endocrinology"; "Nephrology"; "Oncology"]);
              ("contributing_factors",
               array_of (VObj [("type", VStr "object");
                               ("properties", VObj [
                                  ("factor", typed "string");
                                  ("weight", described "string"
                                     "e.g. 'High impact', 'Moderate', 'Minor'")]);
                               ("required", strings ["factor"; "weight"])]));
              ("explanation", described "string"
                 "A 2-3 sentence explanation of the triage decision")]);
           ("required", strings ["risk_level"; "confidence_score";
                                 "recommended_department";
                                 "contributing_factors"; "explanation"])])].

Definition parse_tools : value :=
  VArr [function_tool "extracted_patient_data"
    "Structured patient data extracted from a medical document."
    (VObj [("type", VStr "object");
           ("properties", VObj [
              ("age", typed "number");
              ("gender", typed "string");
              ("symptoms", array_of (typed "string"));
              ("blood_pressure", typed "string");
              ("heart_rate", typed "number");
              ("temperature", typed "number");
              ("pre_existing_conditions", array_of (typed "string"))])])].

Definition synthetic_tools : value :=
  VArr [function_tool "synthetic_patients"
    "Return an array of synthetic patient records with triage results."
    (VObj [("type", VStr "object");
           ("properties", VObj [
              ("patients",
               array_of (VObj [
                 ("type", VStr "object");
                 ("properties", VObj [
                    ("age", typed "number");
                    ("gender", enum "string" ["Male"; "Female"; "Other"]);
                    ("symptoms", array_of (typed "string"));
                    ("blood_pressure", typed "string");
                    ("heart_rate", typed "number");
                    ("temperature", typed "number");
                    ("pre_existing_conditions", array_of (typed "string"));
                    ("risk_level", enum "string" ["Low"; "Medium"; "High"]);
                    ("confidence_score", typed "number");
                    ("recommended_department", typed "string");
                    ("contributing_factors",
                     array_of (VObj [("type", VStr "object");
                                     ("properties", VObj [
                                        ("factor", typed "string");
                                        ("weight", typed "string")]);
                                     ("required", strings ["factor"; "weight"])]));
                    ("ai_explanation", typed "string")]);
                 ("required", strings ["age"; "gender"; "symptoms";
                                       "risk_level"; "confidence_score";
                                       "recommended_department";
                                       "contributing_factors";
                                       "ai_explanation"])]))]);
           ("required", strings ["patients"])])].

(** ** The triage prompt (src/index.ts, lines 43-55) *)

Definition prompt_head : string :=
  "You are a medical triage AI. Analyze the following patient data and classify their risk level, recommend a department, and explain your reasoning."
  ++ nl ++ nl ++ "Patient Data:" ++ nl.

Definition prompt_tail : string :=
  nl ++ nl ++ "Provide your analysis using the triage_result function.".

(** [${patient.k ? `label${patient.k}suffix` : ""}] *)
Definition optional_line (patient : value) (k label suffix : string)
  : outcome string :=
  c <~ get_prop patient k ;;
  if truthy c
  then v <~ get_prop patient k ;; s <~ ToString v ;; Ok (label ++ s ++ suffix)
  else Ok "".

(** [${patient.pre_existing_conditions?.length ? `...join(", ")` : ""}] *)
Definition conditions_line (patient : value) : outcome string :=
  c <~ get_prop patient "pre_existing_conditions" ;;
  if truthy (opt_prop c "length")
  then v <~ get_prop patient "pre_existing_conditions" ;;
       s <~ call_join "patient.pre_existing_conditions" v ", " ;;
       Ok ("- Pre-existing Conditions: " ++ s)
  else Ok "".

Definition triage_prompt (patient : value) : outcome string :=
  age <~ get_prop patient "age" ;;
  age_s <~ ToString age ;;
  gender <~ get_prop patient "gender" ;;
  gender_s <~ ToString gender ;;
  symptoms <~ get_prop patient "symptoms" ;;
  symptoms_s <~ call_join "patient.symptoms" symptoms ", " ;;
  l1 <~ optional_line patient "symptoms_text" "- Additional symptoms: " "" ;;
  l2 <~ optional_line patient "blood_pressure" "- Blood Pressure: " "" ;;
  l3 <~ optional_line patient "heart_rate" "- Heart Rate: " " bpm" ;;
  l4 <~ optional_line patient "temperature" "- Temperature: " "Â°F" ;;
  l5 <~ conditions_line patient ;;
  Ok (prompt_head
      ++ "- Age: " ++ age_s ++ nl
      ++ "- Gender: " ++ gender_s ++ nl
      ++ "- Symptoms: " ++ symptoms_s ++ nl
      ++ l1 ++ nl ++ l2 ++ nl ++ l3 ++ nl ++ l4 ++ nl ++ l5
      ++ prompt_tail).

(** ** Normalising a generated record (src/index.ts, lines 225-238) *)

Definition synthetic_row (p : value) : outcome value :=
  age <~ get_prop p "age" ;;
  gender <~ get_prop p "gender" ;;
  symptoms <~ get_prop p "symptoms" ;;
  blood_pressure <~ get_prop p "blood_pressure" ;;
  heart_rate <~ get_prop p "heart_rate" ;;
  temperature <~ get_prop p "temperature" ;;
  pre_existing_conditions <~ get_prop p "pre_existing_conditions" ;;
  risk_level <~ get_prop p "risk_level" ;;
  confidence_score <~ get_prop p "confidence_score" ;;
  recommended_department <~ get_prop p "recommended_department" ;;
  contributing_factors <~ get_prop p "contributing_factors" ;;
  ai_explanation <~ get_prop p "ai_explanation" ;;
  Ok (VObj [("age", age);
            ("gender", gender);
            ("symptoms", symptoms);
            ("blood_pressure", or_else blood_pressure VNull);
            ("heart_rate", or_else heart_rate VNull);
            ("temperature", or_else temperature VNull);
            ("pre_existing_conditions", or_else pre_existing_conditions (VArr []));
            ("risk_level", risk_level);
            ("confidence_score", confidence_score);
            ("recommended_department", recommended_department);
            ("contributing_factors", contributing_factors);
            ("ai_explanation", ai_explanation)]).

Fixpoint map_outcome (f : value -> outcome value) (l : list value)
  : outcome (list value) :=
  match l with
  | [] => Ok []
  | x :: rest => y <~ f x ;; ys <~ map_outcome f rest ;; Ok (y :: ys)
  end.

(** [recv.map(f)] where [recv] is the value of the source expression
    [src]: only an array has a callable [map]. *)
Definition call_map (src : string) (recv : value) (f : value -> outcome value)
  : outcome (list value) :=
  match recv with
  | VArr l => map_outcome f l
  | VUndefined | VNull =>
      Throw (TypeError ("Cannot read properties of " ++ typeName recv
                          ++ " (reading 'map')"))
  | _ => Throw (TypeError (src ++ ".map is not a function"))
  end.

(** [const { k, .. } = v] where [v] is the value of the source expression
    [src]: reading the first property of undefined or null throws. *)
Definition destructure (src : string) (v : value) (k : string)
  : outcome value :=
  if nullish v
  then Throw (TypeError ("Cannot destructure property '" ++ k ++ "' of '"
                           ++ src ++ "' as it is " ++ typeName v ++ "."))
  else Ok (prop v k).

(** ** The HTTP interface *)

Record request : Type := Request {
  req_method : string;
  (** the body text, which [req.json()] parses *)
  req_body : string
}.

(** [resp_body] is the value handed to [JSON.stringify], or [None] for the
    [null] body. *)
Record response : Type := Response {
  resp_status : Z;
  resp_headers : list (string * string);
  resp_body : option value
}.

Definition corsHeaders : list (string * string) :=
  [("Access-Control-Allow-Origin", "*");
   ("Access-Control-Allow-Headers",
    "authorization, x-client-info, apikey, content-type, x-supabase-client-platform, x-supabase-client-platform-version, x-supabase-client-runtime, x-supabase-client-runtime-version")].

Definition jsonHeaders : list (string * string) :=
  (corsHeaders ++ [("Content-Type", "application/json")])%list.

(** [e.message?.includes(marker)], as a condition *)
Definition message_includes (e : exn) (marker : string) : bool :=
  match message e with
  | Some m => includes m marker
  | None => false
  end.

(** The catch block (src/index.ts, lines 271-278), without its log line. *)
Definition error_response (e : exn) : response :=
  let status :=
    if message_includes e "Rate limit" then 429
    else if message_includes e "Payment" then 402
    else 500 in
  {| resp_status := status;
     resp_headers := jsonHeaders;
     resp_body :=
       Some (VObj [("error", match message e with
                             | Some m => VStr m
                             | None => VUndefined
                             end)]) |}.

(** ** Computations: a trace of events and an outcome *)

Definition M (A : Type) : Type := (list event * outcome A)%type.

Definition ret {A} (a : A) : M A := ([], Ok a).
Definition throw {A} (e : exn) : M A := ([], Throw e).
Definition emit (ev : event) : M unit := ([ev], Ok tt).
Definition lift {A} (o : outcome A) : M A := ([], o).

Definition bind {A B} (m : M A) (k : A -> M B) : M B :=
  match m with
  | (t, Ok a) => let (t', r) := k a in ((t ++ t')%list, r)
  | (t, Throw e) => (t, Throw e)
  end.

Notation "x <- m ;; k" := (bind m (fun x => k))
  (at level 61, m at next level, right associativity) : js_scope.
Notation "m ;;; k" := (bind m (fun _ => k))
  (at level 61, right associativity) : js_scope.

Definition trace {A} (m : M A) : list event := fst m.
Definition result {A} (m : M A) : outcome A := snd m.

Section Service.

(** [JSON.parse] on a string. *)
Variable JSON_parse : string -> outcome value.
Variable w : world.

(** [JSON.parse(v)]: the argument is converted to a string first. *)
Definition JSON_parse_value (v : value) : outcome value :=
  s <~ ToString v ;; JSON_parse s.

(** *** callAI (src/index.ts, lines 14-40) *)

(** The request [callAI] sends. *)
Definition ai_request (messages tools tool_choice : value) : fetch_request :=
  let body :=
    VObj ([("model", VStr "google/gemini-3-flash-preview");
           ("messages", messages)]
          ++ (if truthy tools then [("tools", tools)] else [])
          ++ (if truthy tool_choice then [("tool_choice", tool_choice)] else []))%list in
  {| url := "https://ai.gateway.lovable.dev/v1/chat/completions";
     method := "POST";
     headers := [("Authorization", "Bearer " ++ LOVABLE_API_KEY w);
                 ("Content-Type", "application/json")];
     body := body |}.

(** The error thrown for a response that is not [ok]. *)
Definition ai_error (status : Z) : exn :=
  if (status =? 429)%Z then Error "Rate limit exceeded"
  else if (status =? 402)%Z then Error "Payment required"
  else Error ("AI error: " ++ Z_to_string status).

Definition callAI (messages tools tool_choice : value) : M value :=
  let req := ai_request messages tools tool_choice in
  emit (EFetch req) ;;;
  match fetch w req with
  | inl e => throw e
  | inr response =>
      if negb (ok response) then
        emit (EConsoleAI (status response) (text response)) ;;;
        throw (ai_error (status response))
      else lift (JSON_parse (text response))
  end.

(** [result.choices?.[0]?.message?.tool_calls?.[0]] *)
Definition first_tool_call (result : value) : outcome value :=
  choices <~ get_prop result "choices" ;;
  Ok (opt_index (opt_prop (opt_prop (opt_index choices 0) "message")
                          "tool_calls") 0).

(** [JSON.parse(toolCall.function.arguments)] *)
Definition tool_arguments (toolCall : value) : outcome value :=
  f <~ get_prop toolCall "function" ;;
  a <~ get_prop f "arguments" ;;
  JSON_parse_value a.

(** [[{ role: "user", content }]] *)
Definition user_message (content : value) : value :=
  VArr [VObj [("role", VStr "user"); ("content", content)]].

(** *** handleTriage (src/index.ts, lines 42-101) *)

Definition handleTriage (patient : value) : M value :=
  prompt <- lift (triage_prompt patient) ;;
  result <- callAI (user_message (VStr prompt))
                   triage_tools (forced "triage_result") ;;
  toolCall <- lift (first_tool_call result) ;;
  if negb (truthy toolCall)
  then throw (Error "AI did not return structured triage result")
  else lift (tool_arguments toolCall).

(** *** handleParseDocument (src/index.ts, lines 103-159) *)

Definition parse_prompt : string :=
  "Extract structured patient medical data from this document. Look for: age, gender, symptoms, blood pressure, heart rate, temperature, and pre-existing conditions.".

Definition mimeType (isPdf : bool) : string :=
  if isPdf then "application/pdf" else "image/jpeg".

Definition data_url (mime base64 : string) : string :=
  "data:" ++ mime ++ ";base64," ++ base64.

Definition parse_messages (mime base64 : string) : value :=
  user_message
    (VArr [VObj [("type", VStr "text"); ("text", VStr parse_prompt)];
           VObj [("type", VStr "image_url");
                 ("image_url", VObj [("url", VStr (data_url mime base64))])]]).

Definition handleParseDocument (filePath : value) : M value :=
  emit (EDownload "health-documents" filePath) ;;;
  match storage_download w "health-documents" filePath with
  | inl downloadError => throw downloadError
  | inr bytes =>
      chars <- lift (fromCharCode_spread w bytes) ;;
      let base64 := btoa chars in
      isPdf <- lift (call_endsWith "filePath" filePath ".pdf") ;;
      result <- callAI (parse_messages (mimeType isPdf) base64)
                       parse_tools (forced "extracted_patient_data") ;;
      toolCall <- lift (first_tool_call result) ;;
      if negb (truthy toolCall)
      then ret (VObj [("parsed", VNull)])
      else parsed <- lift (tool_arguments toolCall) ;;
           ret (VObj [("parsed", parsed)])
  end.

(** *** handleGenerateSynthetic (src/index.ts, lines 161-243) *)

Definition synthetic_prompt : string :=
  "Generate 8 realistic synthetic patient records for a hospital triage system. Each patient should have varied demographics, symptoms, vitals, and conditions. Make some high risk, some medium, and some low.".

Definition handleGenerateSynthetic : M value :=
  result <- callAI (user_message (VStr synthetic_prompt))
                   synthetic_tools (forced "synthetic_patients") ;;
  toolCall <- lift (first_tool_call result) ;;
  if negb (truthy toolCall)
  then throw (Error "Failed to generate synthetic data")
  else
    args <- lift (tool_arguments toolCall) ;;
    patients <- lift (destructure "JSON.parse(...)" args "patients") ;;
    rows <- lift (call_map "patients" patients synthetic_row) ;;
    emit (EInsert "patients" rows) ;;;
    match db_insert w "patients" rows with
    | Some error => throw error
    | None =>
        count <- lift (get_prop patients "length") ;;
        ret (VObj [("success", VBool true); ("count", count)])
    end.

(** *** The request handler (src/index.ts, lines 245-279) *)

(** The body of the [try] block, up to the value of [result]. *)
Definition dispatch (req : request) : M value :=
  parsed <- lift (JSON_parse (req_body req)) ;;
  action <- lift (destructure "(intermediate value)" parsed "action") ;;
  patient <- lift (destructure "(intermediate value)" parsed "patient") ;;
  filePath <- lift (destructure "(intermediate value)" parsed "filePath") ;;
  let unknown :=
    lift (s <~ ToString action ;; Throw (Error ("Unknown action: " ++ s))) in
  match action with
  | VStr a =>
      if String.eqb a "triage" then handleTriage patient
      else if String.eqb a "parse-document" then handleParseDocument filePath
      else if String.eqb a "generate-synthetic" then handleGenerateSynthetic
      else unknown
  | _ => unknown
  end.

Definition serve (req : request) : list event * response :=
  if String.eqb (req_method req) "OPTIONS"
  then ([], {| resp_status := 200; resp_headers := corsHeaders;
               resp_body := None |})
  else
    match dispatch req with
    | (t, Ok result) =>
        (t, {| resp_status := 200; resp_headers := jsonHeaders;
               resp_body := Some result |})
    | (t, Throw e) => ((t ++ [EConsoleError e])%list, error_response e)
    end.

End Service.

(** * Vocabulary of the statements *)

Definition contains (s sub : string) : Prop :=
  exists a b, s = a ++ sub ++ b.

Definition ends_with (s suffix : string) : Prop :=
  exists p, s = p ++ suffix.

Definition cannot_convert : exn :=
  TypeError "Cannot convert object to primitive value".

(** Events of a trace that are calls to the gateway. *)
Definition fetched (fr : fetch_request) (t : list event) : Prop :=
  In (EFetch fr) t.

(** [choices[0].message.tool_calls[0]] of a gateway response, undefined
    when any step of the path is missing. *)
Definition tool_call (result : value) : value :=
  opt_index (opt_prop (opt_prop (opt_index (opt_prop result "choices") 0)
                                "message") "tool_calls") 0.

(** The URL of the inline document in the request sent to the gateway:
    [body.messages[0].content[1].image_url.url]. *)
Definition sent_data_url (fr : fetch_request) : value :=
  prop (prop (index (prop (index (prop (body fr) "messages") 0) "content") 1)
             "image_url") "url".

(** The fields a stored row copies from the generated record. *)
Definition copied_fields : list string :=
  ["age"; "gender"; "symptoms"; "risk_level"; "confidence_score";
   "recommended_department"; "contributing_factors"; "ai_explanation"].

Definition vital_fields : list string :=
  ["blood_pressure"; "heart_rate"; "temperature"].

(** [row] is the stored form of the generated record [p]. *)
Definition normalised (p row : value) : Prop :=
  (forall k, In k copied_fields -> prop row k = prop p k)
  /\ (forall k, In k vital_fields ->
        prop row k = (if truthy (prop p k) then prop p k else VNull)
        /\ (prop p k = VUndefined -> prop row k = VNull))
  /\ prop row "pre_existing_conditions"
     = (if truthy (prop p "pre_existing_conditions")
        then prop p "pre_existing_conditions" else VArr [])
  /\ (prop p "pre_existing_conditions" = VUndefined ->
      prop row "pre_existing_conditions" = VArr []).

(** The slot of an optional field in the prompt: its line when the value
    of the field is truthy, nothing otherwise. *)
Definition slot (patient : value) (k label suffix line : string) : Prop :=
  if truthy (prop patient k)
  then exists s, ToString (prop patient k) = Ok s /\ line = label ++ s ++ suffix
  else line = "".

Definition conditions_slot (patient : value) (line : string) : Prop :=
  if truthy (opt_prop (prop patient "pre_existing_conditions") "length")
  then exists items s,
         prop patient "pre_existing_conditions" = VArr items
         /\ join ", " items = Ok s
         /\ line = "- Pre-existing Conditions: " ++ s
  else line = "".

(** * Concrete runs *)

(** A [JSON.parse] that knows the texts of a table, each under a short name,
    and rejects the rest. *)
Definition table_parse (table : list (string * value)) (s : string)
  : outcome value :=
  match lookup s table with
  | Some v => Ok v
  | None => Throw (Exn (Some "Unexpected token in JSON"))
  end.

(** A world whose gateway answers every request with the same response,
    whose storage holds the same four bytes under every path, whose store
    accepts every insert and whose runtime accepts calls of up to 120000
    arguments. *)
Definition constant_world (status : Z) (text : string) : world :=
  {| LOVABLE_API_KEY := "test-key";
     max_arguments := 120000;
     fetch := fun _ => inr {| status := status; text := text |};
     storage_download := fun _ _ => inr "%PDF";
     db_insert := fun _ _ => None |}.

Definition post (body : string) : request :=
  {| req_method := "POST"; req_body := body |}.

(** Two generated records, the arguments of the tool call that carries
    them and the completion that carries the tool call. *)
Definition sample_patients : list value :=
  [VObj [("age", VNum 71); ("gender", VStr "Female");
         ("symptoms", VArr [VStr "dizziness"]);
         ("heart_rate", VNum 0);
         ("risk_level", VStr "High");
         ("confidence_score", VNum 90);
         ("recommended_department", VStr "Cardiology");
         ("contributing_factors", VArr []);
         ("ai_explanation", VStr "Elderly patient.")];
   VObj [("age", VNum 25); ("gender", VStr "Male");
         ("symptoms", VArr [VStr "sprain"]);
         ("blood_pressure", VStr "120/80");
         ("pre_existing_conditions", VArr [VStr "asthma"]);
         ("risk_level", VStr "Low");
         ("confidence_score", VNum 80);
         ("recommended_department", VStr "Orthopedics");
         ("contributing_factors", VArr []);
         ("ai_explanation", VStr "Minor injury.")]].

Definition sample_arguments : value :=
  VObj [("patients", VArr sample_patients)].

Definition sample_tool_call : value :=
  VObj [("function", VObj [("name", VStr "synthetic_patients");
                           ("arguments", VStr "arguments")])].

Definition sample_completion : value :=
  VObj [("choices",
         VArr [VObj [("message",
                      VObj [("tool_calls", VArr [sample_tool_call])])]])].

Definition requests : list (string * value) :=
  [("triage",
    VObj [("action", VStr "triage");
          ("patient", VObj [("age", VNum 54); ("gender", VStr "Male");
                            ("symptoms", VArr [VStr "chest pain"])])]);
   ("nosymptoms",
    VObj [("action", VStr "triage");
          ("patient", VObj [("age", VNum 54); ("gender", VStr "Male")])]);
   ("parse",
    VObj [("action", VStr "parse-document"); ("filePath", VStr "scan.pdf")]);
   ("generate", VObj [("action", VStr "generate-synthetic")]);
   ("limit", VObj [("action", VStr "Rate limit")]);
   ("both", VObj [("action", VStr "Payment after Rate limit")]);
   ("export", VObj [("action", VStr "export")]);
   ("{}", VObj []);
   ("completion", sample_completion);
   ("arguments", sample_arguments)].

(** A record whose heart rate is present and zero. *)
Definition resting_fields : list (string * value) :=
  [("age", VNum 30); ("gender", VStr "Female");
   ("symptoms", VArr [VStr "cough"; VStr "fever"]);
   ("heart_rate", VNum 0); ("temperature", VNum 101);
   ("pre_existing_conditions", VArr [VStr "asthma"])].


(** * Vocabulary of the further properties *)

Definition is_fetch (ev : event) : bool :=
  match ev with EFetch _ => true | _ => false end.

(** Calls to a collaborator, and calls to the gateway, in a trace. *)
Definition calls (t : list event) : nat := List.length (filter network t).
Definition gateway_calls (t : list event) : nat :=
  List.length (filter is_fetch t).

(** The log of [callAI] after its request: nothing, or the line of a
    response that is not [ok]. *)
Definition gateway_log (log : list event) : Prop :=
  log = [] \/ exists s t, log = [EConsoleAI s t].

(** The tool definitions of the three handlers, each with the tool choice
    that forces it. *)
Definition known_tools : list (value * value) :=
  [(triage_tools, forced "triage_result");
   (parse_tools, forced "extracted_patient_data");
   (synthetic_tools, forced "synthetic_patients")].

(** The columns of a stored row, in the order the row is built. *)
Definition row_columns : list string :=
  ["age"; "gender"; "symptoms"; "blood_pressure"; "heart_rate";
   "temperature"; "pre_existing_conditions"; "risk_level";
   "confidence_score"; "recommended_department"; "contributing_factors";
   "ai_explanation"].

(** The own keys of an object, in order. *)
Definition keys (v : value) : list string :=
  match v with
  | VObj fields => map fst fields
  | _ => []
  end.

(** A patient record as the tool schemas type it: age a number, gender a
    string, symptoms an array of strings, and each optional field missing,
    null or of its type. *)
Definition is_number (v : value) : bool :=
  match v with VNum _ => true | _ => false end.
Definition is_string (v : value) : bool :=
  match v with VStr _ => true | _ => false end.
Definition is_strings (v : value) : bool :=
  match v with VArr l => forallb is_string l | _ => false end.
Definition optional (ty : value -> bool) (v : value) : bool :=
  nullish v || ty v.

Definition valid_patient (p : value) : bool :=
  negb (nullish p)
  && is_number (prop p "age")
  && is_string (prop p "gender")
  && is_strings (prop p "symptoms")
  && optional is_string (prop p "symptoms_text")
  && optional is_string (prop p "blood_pressure")
  && optional is_number (prop p "heart_rate")
  && optional is_number (prop p "temperature")
  && optional is_strings (prop p "pre_existing_conditions").

(** A world like [constant_world] whose storage and store answer as
    given. *)
Definition faulty_world (status : Z) (text : string)
           (download : exn + string) (insert : option exn) : world :=
  {| LOVABLE_API_KEY := "test-key";
     max_arguments := 120000;
     fetch := fun _ => inr {| status := status; text := text |};
     storage_download := fun _ _ => download;
     db_insert := fun _ _ => insert |}.

Definition more_requests : list (string * value) :=
  (("nopath", VObj [("action", VStr "parse-document")])
   :: ("null", VNull)
   :: ("triaged", VObj [("risk_level", VStr "High")])
   :: ("completion-triage",
       VObj [("choices",
              VArr [VObj [("message",
                VObj [("tool_calls",
                  VArr [VObj [("function",
                    VObj [("name", VStr "triage_result");
                          ("arguments", VStr "triaged")])]])])]])])
   :: ("completion-broken",
       VObj [("choices",
              VArr [VObj [("message",
                VObj [("tool_calls",
                  VArr [VObj [("function",
                    VObj [("name", VStr "triage_result");
                          ("arguments", VStr "{risk")])]])])]])])
   :: requests)%list.

(** * Properties of the runtime functions *)

Unset Implicit Arguments.

Lemma prefix_spec (p s : string) :
  prefix p s = true <-> exists t, s = p ++ t.
Proof.
  revert s; induction p as [|c p IH]; intros s.
  - destruct s; simpl; (split; [intros _; eexists; reflexivity | reflexivity]).
  - destruct s as [|d s]; simpl.
    + split; [discriminate | intros [t Ht]; discriminate].
    + destruct (ascii_dec c d) as [->|Hne].
      * rewrite IH. split; intros [t Ht]; exists t.
        -- now rewrite Ht.
        -- now injection Ht.
      * split; [discriminate | intros [t Ht]; injection Ht; congruence].
Qed.

Lemma includes_spec (s sub : string) :
  includes s sub = true <-> contains s sub.
Proof.
  unfold contains.
  induction s as [|c s IH]; cbn [includes].
  - rewrite orb_false_r, prefix_spec. split.
    + intros [t Ht]. now exists "", t.
    + intros [[|x a] [b Hb]]; [now exists b | discriminate].
  - rewrite orb_true_iff, prefix_spec, IH. split.
    + intros [[t Ht] | [a [b Hab]]].
      * now exists "", t.
      * exists (String c a), b. simpl. now rewrite Hab.
    + intros [[|x a] [b Hb]].
      * left. now exists b.
      * right. simpl in Hb. injection Hb as _ Hs. now exists a, b.
Qed.

Lemma includes_false (s sub : string) :
  includes s sub = false <-> ~ contains s sub.
Proof.
  rewrite <- includes_spec. destruct (includes s sub); split; congruence.
Qed.

Lemma substring_whole (s : string) : substring 0 (String.length s) s = s.
Proof. induction s as [|c s IH]; simpl; [reflexivity | now rewrite IH]. Qed.

Lemma substring_skip (p s : string) (m : nat) :
  substring (String.length p) m (p ++ s) = substring 0 m s.
Proof. induction p as [|c p IH]; simpl; [reflexivity | exact IH]. Qed.

Lemma substring_split (s : string) (k : nat) :
  (k <= String.length s)%nat ->
  s = substring 0 k s ++ substring k (String.length s - k) s.
Proof.
  revert k; induction s as [|c s IH]; intros k Hk; simpl in *.
  - now replace k with 0%nat by lia.
  - destruct k as [|k]; simpl.
    + now rewrite substring_whole.
    + f_equal. apply IH. lia.
Qed.

Lemma append_length (a b : string) :
  String.length (a ++ b) = (String.length a + String.length b)%nat.
Proof. induction a as [|c a IH]; simpl; [reflexivity | now rewrite IH]. Qed.

Lemma append_empty_r (s : string) : s ++ "" = s.
Proof. induction s as [|c s IH]; simpl; [reflexivity | now rewrite IH]. Qed.

Lemma contains_suffix (a s : string) : contains (a ++ s) s.
Proof. exists a, "". now rewrite append_empty_r. Qed.

Lemma endsWith_spec (s suffix : string) :
  endsWith s suffix = true <-> ends_with s suffix.
Proof.
  unfold endsWith, ends_with. rewrite andb_true_iff, Nat.leb_le, String.eqb_eq.
  split.
  - intros [Hle Hsub].
    exists (substring 0 (String.length s - String.length suffix) s).
    pose proof (substring_split s (String.length s - String.length suffix)%nat) as H.
    replace (String.length s - (String.length s - String.length suffix))%nat
      with (String.length suffix) in H by lia.
    rewrite Hsub in H. apply H. lia.
  - intros [p ->]. rewrite append_length. split; [lia|].
    replace (String.length p + String.length suffix - String.length suffix)%nat
      with (String.length p) by lia.
    now rewrite substring_skip, substring_whole.
Qed.

(** Induction over values, through the lists they nest. *)
Lemma value_nested_ind (P : value -> Prop) :
  P VUndefined -> P VNull -> (forall b, P (VBool b)) -> (forall n, P (VNum n)) ->
  (forall s, P (VStr s)) ->
  (forall l, Forall P l -> P (VArr l)) ->
  (forall fields, Forall (fun kv => P (snd kv)) fields -> P (VObj fields)) ->
  forall v, P v.
Proof.
  intros Hu Hn Hb Hz Hs Ha Ho.
  fix IH 1. intros [| |b|n|s|l|fields].
  - exact Hu.
  - exact Hn.
  - apply Hb.
  - apply Hz.
  - apply Hs.
  - apply Ha. induction l as [|x rest IHl]; constructor; [apply IH | exact IHl].
  - apply Ho. induction fields as [|[k x] rest IHl]; constructor;
      [apply IH | exact IHl].
Qed.

Lemma join_by_throw (conv : value -> outcome string) (sep : string)
      (l : list value) (e e0 : exn) :
  Forall (fun v => forall e, conv v = Throw e -> e = e0) l ->
  join_by conv sep l = Throw e -> e = e0.
Proof.
  induction 1 as [|x rest Hx Hrest IH]; simpl; [discriminate|].
  destruct (nullish x); simpl.
  - destruct rest; [discriminate|].
    destruct (join_by conv sep (v :: rest)) eqn:E; simpl; [discriminate|].
    intros [= <-]. now apply IH.
  - destruct (conv x) eqn:Ec; simpl.
    + destruct rest; [discriminate|].
      destruct (join_by conv sep (v :: rest)) eqn:E; simpl; [discriminate|].
      intros [= <-]. now apply IH.
    + intros [= <-]. now apply Hx.
Qed.

(** The only error of a string conversion. *)
Lemma ToString_throw (v : value) (e : exn) :
  ToString v = Throw e -> e = cannot_convert.
Proof.
  revert e. induction v using value_nested_ind; intros e; simpl; try discriminate.
  - destruct b; discriminate.
  - apply join_by_throw. exact H.
  - destruct (has_own "toString" fields); [|discriminate].
    now intros [= <-].
Qed.

(** * Properties of computations *)

Lemma trace_bind {A B} (m : M A) (k : A -> M B) :
  trace (bind m k)
  = (trace m ++ match result m with
                | Ok a => trace (k a)
                | Throw _ => []
                end)%list.
Proof.
  destruct m as [t [a|e]]; simpl.
  - now destruct (k a).
  - now rewrite app_nil_r.
Qed.

Lemma result_bind {A B} (m : M A) (k : A -> M B) :
  result (bind m k)
  = match result m with
    | Ok a => result (k a)
    | Throw e => Throw e
    end.
Proof.
  destruct m as [t [a|e]]; simpl; [now destruct (k a) | reflexivity].
Qed.

Lemma bind_lift_Ok {A B} (a : A) (k : A -> M B) : bind (lift (Ok a)) k = k a.
Proof. unfold bind, lift. now destruct (k a). Qed.

Arguments ai_request : simpl never.

(** Goals [~ fetched fr (trace c)] for a computation [c] made of pure
    steps. *)
Ltac quiet :=
  repeat match goal with
  | |- forall _, _ => intro
  | |- ~ fetched _ (trace (bind (lift ?o) _)) =>
      destruct o; [rewrite bind_lift_Ok | intros []]
  | |- ~ fetched _ (trace (if negb ?b then _ else _)) =>
      destruct b; cbn [negb]
  | |- ~ fetched _ (trace (lift _)) => intros []
  | |- ~ fetched _ (trace (throw _)) => intros []
  | |- ~ fetched _ (trace (ret _)) => intros []
  end.

(** Goals [trace c = []] for a computation [c] made of pure steps. *)
Ltac silent :=
  repeat match goal with
  | |- forall _, _ => intro
  | |- trace (bind (lift ?o) _) = [] =>
      destruct o; [rewrite bind_lift_Ok | reflexivity]
  | |- trace (if negb ?b then _ else _) = [] => destruct b; cbn [negb]
  | |- trace (lift _) = [] => reflexivity
  | |- trace (throw _) = [] => reflexivity
  | |- trace (ret _) = [] => reflexivity
  end.

Section ServiceFacts.

Variable JSON_parse : string -> outcome value.
Variable w : world.

Lemma callAI_eq (m t c : value) :
  callAI JSON_parse w m t c
  = let req := ai_request w m t c in
    match fetch w req with
    | inl e => ([EFetch req], Throw e)
    | inr r =>
        if ok r then ([EFetch req], JSON_parse (text r))
        else ([EFetch req; EConsoleAI (status r) (text r)],
              Throw (ai_error (status r)))
    end.
Proof.
  unfold callAI. cbv zeta.
  destruct (fetch w (ai_request w m t c)) as [e|r]; [reflexivity|].
  destruct (ok r); reflexivity.
Qed.

(** A computation that starts with [callAI] and then calls the gateway no
    more fails with the gateway's error when the response it got is not
    [ok]. *)
Lemma after_callAI {B} (m t c : value) (k : value -> M B)
      (fr : fetch_request) (r : http_response) :
  (forall v fr', ~ fetched fr' (trace (k v))) ->
  fetched fr (trace (bind (callAI JSON_parse w m t c) k)) ->
  fetch w fr = inr r ->
  ok r = false ->
  result (bind (callAI JSON_parse w m t c) k) = Throw (ai_error (status r)).
Proof.
  intros Hk Hin Hfetch Hok.
  rewrite trace_bind in Hin. rewrite result_bind.
  rewrite callAI_eq in *. cbv zeta in *.
  destruct (fetch w (ai_request w m t c)) as [e|r'] eqn:Hreq.
  - simpl in Hin. destruct Hin as [[= <-]|[]]. congruence.
  - destruct (ok r') eqn:Hok'.
    + apply in_app_or in Hin. destruct Hin as [[[= <-]|[]]|Hin].
      * congruence.
      * simpl in Hin. destruct (JSON_parse (text r')) as [v|e]; [|destruct Hin].
        now apply Hk in Hin.
    + simpl in Hin.
      destruct Hin as [[= <-]|[[=]|[]]].
      simpl. congruence.
Qed.

Lemma callAI_ok (m t c : value) (r : http_response) :
  fetch w (ai_request w m t c) = inr r ->
  ok r = true ->
  callAI JSON_parse w m t c
  = ([EFetch (ai_request w m t c)], JSON_parse (text r)).
Proof. intros Hf Hok. rewrite callAI_eq. cbv zeta. now rewrite Hf, Hok. Qed.

(** The one call to the gateway of a computation that starts with
    [callAI]. *)
Lemma bind_callAI_fetched {B} (m t c : value) (k : value -> M B)
      (fr : fetch_request) :
  (forall v fr', ~ fetched fr' (trace (k v))) ->
  fetched fr (trace (bind (callAI JSON_parse w m t c) k))
  <-> fr = ai_request w m t c.
Proof.
  intros Hk. rewrite trace_bind, callAI_eq. cbv zeta. unfold fetched.
  split.
  - intros Hin. apply in_app_or in Hin. destruct Hin as [Hin|Hin].
    + destruct (fetch w (ai_request w m t c)) as [e|r];
        [|destruct (ok r)]; simpl in Hin;
        repeat (destruct Hin as [Hin|Hin]; try discriminate Hin;
                try (now injection Hin)); destruct Hin.
    + destruct (fetch w (ai_request w m t c)) as [e|r];
        [|destruct (ok r)]; simpl in Hin; try destruct Hin.
      destruct (JSON_parse (text r)); [now apply Hk in Hin | destruct Hin].
  - intros ->. apply in_or_app. left.
    destruct (fetch w (ai_request w m t c)) as [e|r];
      [|destruct (ok r)]; now left.
Qed.

(** A computation that starts with [callAI]: either the call fails, and the
    trace is the request and the log of the failure, or it returns, and the
    rest of the computation follows the request. *)
Lemma bind_callAI_trace {B} (m t c : value) (k : value -> M B) :
  (exists log, gateway_log log
     /\ trace (bind (callAI JSON_parse w m t c) k)
        = EFetch (ai_request w m t c) :: log
     /\ exists e, result (bind (callAI JSON_parse w m t c) k) = Throw e)
  \/ (exists a, trace (bind (callAI JSON_parse w m t c) k)
                = EFetch (ai_request w m t c) :: trace (k a)
        /\ result (bind (callAI JSON_parse w m t c) k) = result (k a)).
Proof.
  rewrite trace_bind, result_bind, callAI_eq. cbv zeta.
  destruct (fetch w (ai_request w m t c)) as [e|r].
  - left. exists []. split; [now left|]. split; [reflexivity | now exists e].
  - destruct (ok r).
    + destruct (JSON_parse (text r)) as [a|e].
      * right. exists a. split; reflexivity.
      * left. exists []. split; [now left|].
        split; [reflexivity | now exists e].
    + left. exists [EConsoleAI (status r) (text r)].
      split; [right; now exists (status r), (text r)|].
      split; [reflexivity | now eexists].
Qed.

Lemma handleTriage_gateway_failure (patient : value)
      (fr : fetch_request) (r : http_response) :
  fetched fr (trace (handleTriage JSON_parse w patient)) ->
  fetch w fr = inr r -> ok r = false ->
  result (handleTriage JSON_parse w patient) = Throw (ai_error (status r)).
Proof.
  unfold handleTriage.
  destruct (triage_prompt patient) as [prompt|e].
  - rewrite bind_lift_Ok. apply after_callAI. quiet.
  - intros [].
Qed.

Lemma handleGenerateSynthetic_gateway_failure
      (fr : fetch_request) (r : http_response) :
  fetched fr (trace (handleGenerateSynthetic JSON_parse w)) ->
  fetch w fr = inr r -> ok r = false ->
  result (handleGenerateSynthetic JSON_parse w) = Throw (ai_error (status r)).
Proof.
  unfold handleGenerateSynthetic. apply after_callAI. quiet.
  rewrite trace_bind. cbn [emit trace result fst snd app].
  match goal with |- context [db_insert w ?t ?rows] =>
    destruct (db_insert w t rows) end.
  - intros [[=]|[]].
  - match goal with |- context [get_prop ?x "length"] =>
      destruct (get_prop x "length") end; intros [[=]|[]].
Qed.

(** A parse-document run whose file is larger than the runtime accepts as
    arguments stops at the encoding. *)
Lemma handleParseDocument_too_large (filePath : value) (bytes : string) :
  storage_download w "health-documents" filePath = inr bytes ->
  fits w bytes = false ->
  handleParseDocument JSON_parse w filePath
  = ([EDownload "health-documents" filePath],
     Throw (RangeError "Maximum call stack size exceeded")).
Proof.
  intros Hd Hfit. unfold handleParseDocument, fromCharCode_spread.
  rewrite Hd, Hfit. reflexivity.
Qed.

(** A parse-document run whose file is encoded: the download, then a
    computation that starts with [callAI]. *)
Lemma handleParseDocument_encoded (filePath : value) (bytes : string)
      (isPdf : bool) :
  storage_download w "health-documents" filePath = inr bytes ->
  fits w bytes = true ->
  call_endsWith "filePath" filePath ".pdf" = Ok isPdf ->
  handleParseDocument JSON_parse w filePath
  = bind (emit (EDownload "health-documents" filePath))
      (fun _ =>
         result <- callAI JSON_parse w
                     (parse_messages (mimeType isPdf) (btoa bytes))
                     parse_tools (forced "extracted_patient_data") ;;
         toolCall <- lift (first_tool_call result) ;;
         if negb (truthy toolCall)
         then ret (VObj [("parsed", VNull)])
         else parsed <- lift (tool_arguments JSON_parse toolCall) ;;
              ret (VObj [("parsed", parsed)])).
Proof.
  intros Hd Hfit He. unfold handleParseDocument, fromCharCode_spread.
  now rewrite Hd, Hfit, bind_lift_Ok, He, bind_lift_Ok.
Qed.

(** The one call to the gateway of a parse-document run. *)
Lemma handleParseDocument_fetched (filePath : value) (bytes : string)
      (isPdf : bool) (fr : fetch_request) :
  storage_download w "health-documents" filePath = inr bytes ->
  fits w bytes = true ->
  call_endsWith "filePath" filePath ".pdf" = Ok isPdf ->
  fetched fr (trace (handleParseDocument JSON_parse w filePath))
  <-> fr = ai_request w (parse_messages (mimeType isPdf) (btoa bytes))
                      parse_tools (forced "extracted_patient_data").
Proof.
  intros Hd Hfit He.
  rewrite (handleParseDocument_encoded filePath bytes isPdf Hd Hfit He).
  rewrite trace_bind. cbn [emit trace result fst snd app].
  split.
  - intros [[=]|Hin]. revert Hin. apply bind_callAI_fetched. quiet.
  - intros ->. right. apply bind_callAI_fetched; [quiet | reflexivity].
Qed.

(** The trace of a parse-document run whose file is encoded: the download,
    one request to the gateway and the log of that call. *)
Lemma handleParseDocument_run (filePath : value) (bytes : string)
      (isPdf : bool) :
  storage_download w "health-documents" filePath = inr bytes ->
  fits w bytes = true ->
  call_endsWith "filePath" filePath ".pdf" = Ok isPdf ->
  exists log,
    trace (handleParseDocument JSON_parse w filePath)
    = EDownload "health-documents" filePath
      :: EFetch (ai_request w (parse_messages (mimeType isPdf) (btoa bytes))
                            parse_tools (forced "extracted_patient_data"))
      :: log
    /\ gateway_log log.
Proof.
  intros Hd Hfit He.
  rewrite (handleParseDocument_encoded filePath bytes isPdf Hd Hfit He).
  rewrite trace_bind. cbn [emit trace result fst snd app].
  match goal with |- context [bind (callAI _ _ ?m ?t ?c) ?k] =>
    destruct (bind_callAI_trace m t c k) as [[log [Hlog [-> _]]]|[a [-> _]]]
  end.
  - now exists log.
  - exists []. split; [|now left]. do 2 f_equal. silent.
Qed.

Lemma handleParseDocument_gateway_failure (filePath : value)
      (fr : fetch_request) (r : http_response) :
  fetched fr (trace (handleParseDocument JSON_parse w filePath)) ->
  fetch w fr = inr r -> ok r = false ->
  result (handleParseDocument JSON_parse w filePath)
  = Throw (ai_error (status r)).
Proof.
  unfold handleParseDocument. rewrite trace_bind, result_bind.
  cbn [emit trace result fst snd app].
  destruct (storage_download w "health-documents" filePath) as [e|bytes].
  - intros [[=]|[]].
  - destruct (fromCharCode_spread w bytes) as [chars|e];
      [rewrite bind_lift_Ok | intros [[=]|[]]].
    destruct (call_endsWith "filePath" filePath ".pdf") as [isPdf|e].
    + rewrite bind_lift_Ok. intros [[=]|Hin]. revert Hin.
      apply after_callAI. quiet.
    + intros [[=]|[]].
Qed.

Lemma dispatch_gateway_failure (req : request)
      (fr : fetch_request) (r : http_response) :
  fetched fr (trace (dispatch JSON_parse w req)) ->
  fetch w fr = inr r -> ok r = false ->
  result (dispatch JSON_parse w req) = Throw (ai_error (status r)).
Proof.
  unfold dispatch.
  destruct (JSON_parse (req_body req)) as [parsed|e]; [|intros []].
  rewrite bind_lift_Ok. unfold destructure.
  destruct (nullish parsed); [intros []|].
  rewrite !bind_lift_Ok.
  assert (Hunknown : forall action,
    ~ fetched fr (trace (lift (A := value)
       (s <~ ToString action ;; Throw (Error ("Unknown action: " ++ s)))))).
  { intros action []. }
  destruct (prop parsed "action") as [| |b|n|a|l|fields] eqn:Haction;
    try (intros Hin; now apply Hunknown in Hin).
  destruct (String.eqb a "triage"); [apply handleTriage_gateway_failure|].
  destruct (String.eqb a "parse-document");
    [apply handleParseDocument_gateway_failure|].
  destruct (String.eqb a "generate-synthetic");
    [apply handleGenerateSynthetic_gateway_failure|].
  intros Hin; now apply Hunknown in Hin.
Qed.

(** The response of the service in terms of the outcome of [dispatch]. *)
Lemma serve_eq (req : request) :
  String.eqb (req_method req) "OPTIONS" = false ->
  serve JSON_parse w req
  = match result (dispatch JSON_parse w req) with
    | Ok v => (trace (dispatch JSON_parse w req),
               {| resp_status := 200; resp_headers := jsonHeaders;
                  resp_body := Some v |})
    | Throw e => ((trace (dispatch JSON_parse w req) ++ [EConsoleError e])%list,
                  error_response e)
    end.
Proof.
  intros Hm. unfold serve. rewrite Hm.
  now destruct (dispatch JSON_parse w req) as [t [v|e]].
Qed.

End ServiceFacts.

(** The status the catch block derives from the message of an error. *)
Lemma error_response_status (e : exn) :
  (forall m, message e = Some m -> contains m "Rate limit" ->
             resp_status (error_response e) = 429)
  /\ (forall m, message e = Some m -> ~ contains m "Rate limit" ->
                contains m "Payment" -> resp_status (error_response e) = 402)
  /\ (forall m, message e = Some m -> ~ contains m "Rate limit" ->
                ~ contains m "Payment" -> resp_status (error_response e) = 500)
  /\ (message e = None -> resp_status (error_response e) = 500).
Proof.
  unfold error_response, message_includes. simpl. repeat split.
  - intros m -> H. apply includes_spec in H. now rewrite H.
  - intros m -> H1 H2. apply includes_false in H1. apply includes_spec in H2.
    now rewrite H1, H2.
  - intros m -> H1 H2. apply includes_false in H1, H2. now rewrite H1, H2.
  - now intros ->.
Qed.

(** What [dispatch] does once the body is parsed and the action is none of
    the three the service knows. *)
Lemma dispatch_unknown (JSON_parse : string -> outcome value) (w : world)
      (req : request) (parsed : value) :
  JSON_parse (req_body req) = Ok parsed ->
  nullish parsed = false ->
  prop parsed "action" <> VStr "triage" ->
  prop parsed "action" <> VStr "parse-document" ->
  prop parsed "action" <> VStr "generate-synthetic" ->
  dispatch JSON_parse w req
  = lift (s <~ ToString (prop parsed "action") ;;
          Throw (Error ("Unknown action: " ++ s))).
Proof.
  intros Hp Hn H1 H2 H3. unfold dispatch, destructure.
  rewrite Hp, bind_lift_Ok, Hn, !bind_lift_Ok.
  destruct (prop parsed "action") as [| |b|n|a|l|fields]; try reflexivity.
  destruct (String.eqb_spec a "triage") as [->|_]; [congruence|].
  destruct (String.eqb_spec a "parse-document") as [->|_]; [congruence|].
  destruct (String.eqb_spec a "generate-synthetic") as [->|_]; [congruence|].
  reflexivity.
Qed.

(** A patient without an array of symptoms: the prompt is not built, and
    the message of the error carries neither marker of the catch block. *)
Lemma triage_prompt_without_symptoms (patient : value) :
  (forall l, prop patient "symptoms" <> VArr l) ->
  exists msg,
    triage_prompt patient = Throw (TypeError msg)
    /\ includes msg "Rate limit" = false
    /\ includes msg "Payment" = false.
Proof.
  intros Hs. unfold triage_prompt, get_prop.
  destruct (nullish patient) eqn:Hn.
  { destruct patient; try discriminate Hn; simpl;
      eexists; (split; [reflexivity|]); split; reflexivity. }
  cbn [obind].
  destruct (ToString (prop patient "age")) as [age|e] eqn:Hage; cbn [obind].
  2: { apply ToString_throw in Hage. subst e.
       eexists; (split; [reflexivity|]); split; reflexivity. }
  destruct (ToString (prop patient "gender")) as [gender|e] eqn:Hgender;
    cbn [obind].
  2: { apply ToString_throw in Hgender. subst e.
       eexists; (split; [reflexivity|]); split; reflexivity. }
  destruct (prop patient "symptoms") as [| |b|n|a|l|fields]; cbn [call_join obind];
    try (eexists; (split; [reflexivity|]); split; reflexivity).
  now destruct (Hs l).
Qed.

Lemma first_tool_call_eq (answer : value) :
  nullish answer = false -> first_tool_call answer = Ok (tool_call answer).
Proof.
  intros Hn.
  assert (H : opt_prop answer "choices" = prop answer "choices")
    by (unfold opt_prop; now rewrite Hn).
  unfold first_tool_call, tool_call, get_prop. now rewrite Hn, H.
Qed.

(** The stored form of a record that is neither undefined nor null. *)
Lemma synthetic_row_ok (p : value) :
  nullish p = false ->
  exists row, synthetic_row p = Ok row /\ normalised p row.
Proof.
  intros Hn. unfold synthetic_row, get_prop. rewrite Hn. cbn [obind].
  eexists. split; [reflexivity|].
  unfold normalised, copied_fields, vital_fields, or_else.
  split; [|split; [|split]].
  - intros k Hk. simpl in Hk.
    repeat (destruct Hk as [<-|Hk]; [reflexivity|]). destruct Hk.
  - intros k Hk. simpl in Hk.
    repeat (destruct Hk as [<-|Hk];
            [split; [reflexivity | intros H; cbn; now rewrite H]|]).
    destruct Hk.
  - reflexivity.
  - intros H. cbn. now rewrite H.
Qed.

Lemma map_synthetic_row (ps : list value) :
  Forall (fun p => nullish p = false) ps ->
  exists rows,
    map_outcome synthetic_row ps = Ok rows /\ Forall2 normalised ps rows.
Proof.
  induction 1 as [|p ps Hp Hps [rows [Hrows Hnorm]]].
  - exists []. split; [reflexivity | constructor].
  - destruct (synthetic_row_ok p Hp) as [row [Hrow Hn]].
    exists (row :: rows). split.
    + simpl. now rewrite Hrow, Hrows.
    + now constructor.
Qed.

Lemma optional_line_slot (patient : value) (k label suffix line : string) :
  nullish patient = false ->
  optional_line patient k label suffix = Ok line ->
  slot patient k label suffix line.
Proof.
  intros Hn. unfold optional_line, slot, get_prop. rewrite Hn. cbn [obind].
  destruct (truthy (prop patient k)).
  - destruct (ToString (prop patient k)) as [s|e]; cbn [obind]; [|discriminate].
    intros [= <-]. exists s. split; reflexivity.
  - now intros [= <-].
Qed.

Lemma conditions_line_slot (patient : value) (line : string) :
  nullish patient = false ->
  conditions_line patient = Ok line ->
  conditions_slot patient line.
Proof.
  intros Hn. unfold conditions_line, conditions_slot, get_prop.
  rewrite Hn. cbn [obind].
  destruct (truthy (opt_prop (prop patient "pre_existing_conditions") "length")).
  - destruct (prop patient "pre_existing_conditions") as [| |b|n|a|items|fields];
      cbn [call_join obind]; try discriminate.
    destruct (join ", " items) as [s|e] eqn:Hj; cbn [obind]; [|discriminate].
    intros [= <-]. exists items, s. now rewrite Hj.
  - now intros [= <-].
Qed.


(** * The claims *)

(** C6: a gateway response that is not [ok] makes [callAI] throw: status 429
    gives the error "Rate limit exceeded", status 402 the error "Payment
    required", and every other status the error "AI error: " followed by the
    status in decimal, which is neither of the first two. *)
Theorem callAI_non_success
    (JSON_parse : string -> outcome value) (w : world)
    (messages tools tool_choice : value) (r : http_response) :
  fetch w (ai_request w messages tools tool_choice) = inr r ->
  ok r = false ->
  exists e,
    result (callAI JSON_parse w messages tools tool_choice) = Throw e
    /\ (status r = 429 -> e = Error "Rate limit exceeded")
    /\ (status r = 402 -> e = Error "Payment required")
    /\ (status r <> 429 -> status r <> 402 ->
        e = Error ("AI error: " ++ Z_to_string (status r))
        /\ e <> Error "Rate limit exceeded"
        /\ e <> Error "Payment required").
Proof.
  intros Hfetch Hok. exists (ai_error (status r)).
  rewrite callAI_eq. cbv zeta. rewrite Hfetch, Hok. unfold ai_error.
  split; [reflexivity|]. repeat split.
  - now intros ->.
  - now intros ->.
  - apply Z.eqb_neq in H, H0. now rewrite H, H0.
  - apply Z.eqb_neq in H, H0. rewrite H, H0. discriminate.
  - apply Z.eqb_neq in H, H0. rewrite H, H0. discriminate.
Qed.

Lemma callAI_non_success_witness :
  exists e,
    result (callAI (table_parse []) (constant_world 503 "unavailable")
                   VNull VNull VNull) = Throw e
    /\ e = Error "AI error: 503".
Proof.
  destruct (callAI_non_success (table_parse [])
              (constant_world 503 "unavailable") VNull VNull VNull
              {| status := 503; text := "unavailable" |}
              eq_refl eq_refl) as [e [He [_ [_ H]]]].
  exists e. split; [exact He|]. apply H; discriminate.
Defined.

(** C2: whenever the service called the gateway and the gateway answered
    with status 429, the service answers with status 429; with status 402,
    the service answers with status 402. *)
Theorem gateway_status_surfaces
    (JSON_parse : string -> outcome value) (w : world) (req : request)
    (fr : fetch_request) (r : http_response) :
  fetched fr (fst (serve JSON_parse w req)) ->
  fetch w fr = inr r ->
  (status r = 429 -> resp_status (snd (serve JSON_parse w req)) = 429)
  /\ (status r = 402 -> resp_status (snd (serve JSON_parse w req)) = 402).
Proof.
  intros Hin Hfetch.
  destruct (String.eqb (req_method req) "OPTIONS") eqn:Hm.
  { unfold serve in Hin. rewrite Hm in Hin. destruct Hin. }
  rewrite serve_eq in * by exact Hm.
  assert (Hfail : ok r = false ->
            result (dispatch JSON_parse w req) = Throw (ai_error (status r))).
  { intros Hok. apply dispatch_gateway_failure with (fr := fr); trivial.
    destruct (result (dispatch JSON_parse w req)); simpl in Hin; trivial.
    apply in_app_or in Hin. destruct Hin as [Hin|[[=]|[]]]. exact Hin. }
  split; intros Hs.
  - rewrite Hfail by (unfold ok; rewrite Hs; reflexivity).
    rewrite Hs. reflexivity.
  - rewrite Hfail by (unfold ok; rewrite Hs; reflexivity).
    rewrite Hs. reflexivity.
Qed.

Lemma gateway_status_surfaces_witness :
  resp_status (snd (serve (table_parse requests)
                          (constant_world 429 "slow down") (post "generate")))
  = 429.
Proof.
  apply (gateway_status_surfaces (table_parse requests)
           (constant_world 429 "slow down") (post "generate")
           (ai_request (constant_world 429 "slow down")
              (user_message (VStr synthetic_prompt))
              synthetic_tools (forced "synthetic_patients"))
           {| status := 429; text := "slow down" |}).
  - left. reflexivity.
  - reflexivity.
  - reflexivity.
Defined.

(** C8: for every error [e] that reaches the catch block, the status of the
    response is 429 when the message of [e] contains "Rate limit" (whether or
    not it contains "Payment"), 402 when it contains "Payment" and not "Rate
    limit", and 500 otherwise, also when [e] has no message. *)
Theorem catch_status
    (JSON_parse : string -> outcome value) (w : world) (req : request)
    (e : exn) :
  String.eqb (req_method req) "OPTIONS" = false ->
  result (dispatch JSON_parse w req) = Throw e ->
  let resp := snd (serve JSON_parse w req) in
  (forall m, message e = Some m -> contains m "Rate limit" ->
             resp_status resp = 429)
  /\ (forall m, message e = Some m -> ~ contains m "Rate limit" ->
                contains m "Payment" -> resp_status resp = 402)
  /\ (forall m, message e = Some m -> ~ contains m "Rate limit" ->
                ~ contains m "Payment" -> resp_status resp = 500)
  /\ (message e = None -> resp_status resp = 500).
Proof.
  intros Hm He. rewrite serve_eq by exact Hm. rewrite He.
  apply error_response_status.
Qed.

Lemma catch_status_witness :
  resp_status (snd (serve (table_parse requests) (constant_world 200 "{}")
                          (post "both"))) = 429.
Proof.
  refine (proj1 (catch_status (table_parse requests)
                   (constant_world 200 "{}") (post "both")
                   (Error "Unknown action: Payment after Rate limit")
                   eq_refl eq_refl) _ eq_refl _).
  exists "Unknown action: Payment after ", "". reflexivity.
Defined.

(** C5, as the spec states it, fails: an unknown action whose text contains
    "Rate limit" is answered with status 429, not 500. *)
Lemma unknown_action_counterexample :
  ~ (forall (JSON_parse : string -> outcome value) (w : world) (req : request)
            (parsed : value),
        String.eqb (req_method req) "OPTIONS" = false ->
        JSON_parse (req_body req) = Ok parsed ->
        nullish parsed = false ->
        prop parsed "action" <> VStr "triage" ->
        prop parsed "action" <> VStr "parse-document" ->
        prop parsed "action" <> VStr "generate-synthetic" ->
        resp_status (snd (serve JSON_parse w req)) = 500).
Proof.
  intros H.
  specialize (H (table_parse requests) (constant_world 200 "{}") (post "limit")
                (VObj [("action", VStr "Rate limit")])
                eq_refl eq_refl eq_refl).
  cbv in H. discriminate H; discriminate.
Qed.

(** C5, amended: a request that is not OPTIONS and whose parsed body has an
    action other than the three known ones, printable as the string [s], is
    answered with the body [{error: "Unknown action: " ++ s}], which contains
    [s]; the status is 500 unless that message contains "Rate limit" (then
    429) or, failing that, "Payment" (then 402). *)
Theorem unknown_action_response
    (JSON_parse : string -> outcome value) (w : world) (req : request)
    (parsed : value) (s : string) :
  String.eqb (req_method req) "OPTIONS" = false ->
  JSON_parse (req_body req) = Ok parsed ->
  nullish parsed = false ->
  prop parsed "action" <> VStr "triage" ->
  prop parsed "action" <> VStr "parse-document" ->
  prop parsed "action" <> VStr "generate-synthetic" ->
  ToString (prop parsed "action") = Ok s ->
  let msg := "Unknown action: " ++ s in
  let resp := snd (serve JSON_parse w req) in
  resp_body resp = Some (VObj [("error", VStr msg)])
  /\ contains msg s
  /\ (contains msg "Rate limit" -> resp_status resp = 429)
  /\ (~ contains msg "Rate limit" -> contains msg "Payment" ->
      resp_status resp = 402)
  /\ (~ contains msg "Rate limit" -> ~ contains msg "Payment" ->
      resp_status resp = 500).
Proof.
  intros Hm Hp Hn H1 H2 H3 Hs msg resp. subst resp.
  rewrite serve_eq by exact Hm.
  rewrite (dispatch_unknown JSON_parse w req parsed Hp Hn H1 H2 H3), Hs.
  cbn [obind lift result snd].
  destruct (error_response_status (Error msg)) as [E1 [E2 [E3 _]]].
  split; [reflexivity|]. split; [apply contains_suffix|].
  repeat split.
  - intros H. now apply (E1 msg).
  - intros Ha Hb. now apply (E2 msg).
  - intros Ha Hb. now apply (E3 msg).
Qed.

Lemma unknown_action_response_witness :
  resp_status (snd (serve (table_parse requests) (constant_world 200 "{}")
                          (post "export"))) = 500.
Proof.
  refine (proj2 (proj2 (proj2 (proj2
            (unknown_action_response (table_parse requests)
               (constant_world 200 "{}") (post "export")
               (VObj [("action", VStr "export")]) "export"
               eq_refl eq_refl eq_refl _ _ _ eq_refl)))) _ _);
    try discriminate.
  - apply includes_false. reflexivity.
  - apply includes_false. reflexivity.
Defined.

(** C9: a triage request whose patient has no array of symptoms gets no
    triage result: no collaborator is called (the trace holds the log line of
    the catch block only) and the response has status 500 and the body
    [{error: msg}], [msg] being the message of the TypeError. *)
Theorem triage_without_symptoms
    (JSON_parse : string -> outcome value) (w : world) (req : request)
    (parsed : value) :
  String.eqb (req_method req) "OPTIONS" = false ->
  JSON_parse (req_body req) = Ok parsed ->
  prop parsed "action" = VStr "triage" ->
  (forall l, prop (prop parsed "patient") "symptoms" <> VArr l) ->
  exists msg,
    serve JSON_parse w req
    = ([EConsoleError (TypeError msg)],
       {| resp_status := 500;
          resp_headers := jsonHeaders;
          resp_body := Some (VObj [("error", VStr msg)]) |})
    /\ forallb network (fst (serve JSON_parse w req)) = false.
Proof.
  intros Hm Hp Ha Hs.
  destruct (triage_prompt_without_symptoms _ Hs) as [msg [Hprompt [Hr Hpay]]].
  exists msg.
  assert (Hd : dispatch JSON_parse w req = ([], Throw (TypeError msg))).
  { unfold dispatch, destructure. rewrite Hp, bind_lift_Ok.
    destruct (nullish parsed) eqn:Hn.
    { destruct parsed; discriminate. }
    rewrite !bind_lift_Ok, Ha. cbn [String.eqb Ascii.eqb Bool.eqb].
    unfold handleTriage. now rewrite Hprompt. }
  assert (Hserve : serve JSON_parse w req
                   = ([EConsoleError (TypeError msg)],
                      error_response (TypeError msg))).
  { rewrite serve_eq by exact Hm. now rewrite Hd. }
  rewrite Hserve. split; [|reflexivity].
  unfold error_response, message_includes. cbn [message TypeError].
  now rewrite Hr, Hpay.
Qed.

Lemma triage_without_symptoms_witness :
  exists msg,
    serve (table_parse requests) (constant_world 200 "{}") (post "nosymptoms")
    = ([EConsoleError (TypeError msg)],
       {| resp_status := 500;
          resp_headers := jsonHeaders;
          resp_body := Some (VObj [("error", VStr msg)]) |})
    /\ forallb network
         (fst (serve (table_parse requests) (constant_world 200 "{}")
                     (post "nosymptoms"))) = false.
Proof.
  apply (triage_without_symptoms (table_parse requests)
           (constant_world 200 "{}") (post "nosymptoms")
           (VObj [("action", VStr "triage");
                  ("patient", VObj [("age", VNum 54); ("gender", VStr "Male")])])
           eq_refl eq_refl eq_refl).
  intros l. discriminate.
Defined.

(** C7: in every request a parse-document run sends to the gateway, the URL
    of the inline document is "data:application/pdf;base64," followed by the
    encoded bytes if and only if the path ends with ".pdf", and
    "data:image/jpeg;base64," followed by the encoded bytes if and only if it
    does not.  A run whose download succeeds sends exactly one such request
    when the runtime accepts one argument per byte of the file, and none (the
    encoding throws) when it does not. *)
Theorem parse_document_mime
    (JSON_parse : string -> outcome value) (w : world)
    (filePath bytes : string) :
  storage_download w "health-documents" (VStr filePath) = inr bytes ->
  (forall fr,
      fetched fr (trace (handleParseDocument JSON_parse w (VStr filePath))) ->
      (sent_data_url fr = VStr ("data:application/pdf;base64," ++ btoa bytes)
       <-> ends_with filePath ".pdf")
      /\ (sent_data_url fr = VStr ("data:image/jpeg;base64," ++ btoa bytes)
          <-> ~ ends_with filePath ".pdf"))
  /\ (fits w bytes = true ->
      exists fr log,
        trace (handleParseDocument JSON_parse w (VStr filePath))
        = EDownload "health-documents" (VStr filePath) :: EFetch fr :: log
        /\ gateway_log log)
  /\ (fits w bytes = false ->
      handleParseDocument JSON_parse w (VStr filePath)
      = ([EDownload "health-documents" (VStr filePath)],
         Throw (RangeError "Maximum call stack size exceeded"))).
Proof.
  intros Hd.
  assert (Hurl : forall mime,
    sent_data_url (ai_request w (parse_messages mime (btoa bytes))
                              parse_tools (forced "extracted_patient_data"))
    = VStr (data_url mime (btoa bytes))) by reflexivity.
  destruct (fits w bytes) eqn:Hfit.
  - split; [|split; [|discriminate]].
    + intros fr Hin.
      apply (handleParseDocument_fetched JSON_parse w (VStr filePath) bytes
               (endsWith filePath ".pdf") fr Hd Hfit eq_refl) in Hin.
      subst fr. rewrite Hurl, <- endsWith_spec.
      destruct (endsWith filePath ".pdf"); unfold mimeType, data_url; simpl;
        (split; split; intros H; try reflexivity; try discriminate H;
         try congruence).
    + intros _.
      destruct (handleParseDocument_run JSON_parse w (VStr filePath) bytes
                  (endsWith filePath ".pdf") Hd Hfit eq_refl)
        as [log [Ht Hlog]].
      eexists. exists log. split; [exact Ht | exact Hlog].
  - rewrite (handleParseDocument_too_large JSON_parse w (VStr filePath) bytes
               Hd Hfit).
    split; [|split; [discriminate | reflexivity]].
    intros fr [[=]|[]].
Qed.

Lemma parse_document_mime_witness :
  exists fr log,
    trace (handleParseDocument (table_parse requests)
             (constant_world 200 "{}") (VStr "scan.pdf"))
    = EDownload "health-documents" (VStr "scan.pdf") :: EFetch fr :: log
    /\ gateway_log log.
Proof.
  apply (parse_document_mime (table_parse requests) (constant_world 200 "{}")
           "scan.pdf" "%PDF").
  - reflexivity.
  - reflexivity.
Defined.

(** C1, as the spec states it, fails: a successful response whose body is
    the JSON value null holds no tool call, and the document-parse handler
    throws on it (reading [result.choices]) instead of returning
    [{parsed: null}]. *)
Lemma missing_tool_call_counterexample :
  ~ (forall (JSON_parse : string -> outcome value) (w : world)
            (answer : value) (filePath bytes : string),
        (forall fr, exists r,
            fetch w fr = inr r /\ ok r = true
            /\ JSON_parse (text r) = Ok answer) ->
        truthy (tool_call answer) = false ->
        storage_download w "health-documents" (VStr filePath) = inr bytes ->
        fits w bytes = true ->
        result (handleParseDocument JSON_parse w (VStr filePath))
        = Ok (VObj [("parsed", VNull)])).
Proof.
  intros H.
  specialize (H (table_parse more_requests) (constant_world 200 "null")
                VNull "scan.pdf" "%PDF").
  assert (Hrun : result (handleParseDocument (table_parse more_requests)
                           (constant_world 200 "null") (VStr "scan.pdf"))
                 = Throw (TypeError
                     "Cannot read properties of null (reading 'choices')"))
    by reflexivity.
  rewrite Hrun in H. discriminate H; try reflexivity.
  intros fr. exists {| status := 200; text := "null" |}.
  split; [reflexivity|]. split; reflexivity.
Qed.

(** C1, amended: when the gateway answers every request with a successful
    response whose JSON is a value other than null with no tool call at
    [choices[0].message.tool_calls[0]], the triage handler throws (the error
    "AI did not return structured triage result" once the prompt is built),
    the synthetic-generation handler throws the error "Failed to generate
    synthetic data", and the document-parse handler, once the download
    succeeds and the file is encoded, returns [{parsed: null}], which the
    service sends with status 200. *)
Theorem missing_tool_call
    (JSON_parse : string -> outcome value) (w : world) (answer : value) :
  (forall fr, exists r,
      fetch w fr = inr r /\ ok r = true /\ JSON_parse (text r) = Ok answer) ->
  nullish answer = false ->
  truthy (tool_call answer) = false ->
  (forall patient, exists e,
      result (handleTriage JSON_parse w patient) = Throw e
      /\ (forall prompt, triage_prompt patient = Ok prompt ->
            e = Error "AI did not return structured triage result"))
  /\ result (handleGenerateSynthetic JSON_parse w)
     = Throw (Error "Failed to generate synthetic data")
  /\ (forall filePath bytes,
        storage_download w "health-documents" (VStr filePath) = inr bytes ->
        fits w bytes = true ->
        result (handleParseDocument JSON_parse w (VStr filePath))
        = Ok (VObj [("parsed", VNull)]))
  /\ (forall req parsed filePath bytes,
        String.eqb (req_method req) "OPTIONS" = false ->
        JSON_parse (req_body req) = Ok parsed ->
        prop parsed "action" = VStr "parse-document" ->
        prop parsed "filePath" = VStr filePath ->
        storage_download w "health-documents" (VStr filePath) = inr bytes ->
        fits w bytes = true ->
        snd (serve JSON_parse w req)
        = {| resp_status := 200;
             resp_headers := jsonHeaders;
             resp_body := Some (VObj [("parsed", VNull)]) |}).
Proof.
  intros Hgw Hn Hcall.
  assert (Hai : forall m t c,
             callAI JSON_parse w m t c
             = ([EFetch (ai_request w m t c)], Ok answer)).
  { intros m t c. destruct (Hgw (ai_request w m t c)) as [r [Hf [Hok Hj]]].
    rewrite (callAI_ok JSON_parse w m t c r Hf Hok). now rewrite Hj. }
  assert (Hparse : forall filePath bytes,
             storage_download w "health-documents" (VStr filePath) = inr bytes ->
             fits w bytes = true ->
             result (handleParseDocument JSON_parse w (VStr filePath))
             = Ok (VObj [("parsed", VNull)])).
  { intros filePath bytes Hd Hfit.
    rewrite (handleParseDocument_encoded JSON_parse w (VStr filePath) bytes
               (endsWith filePath ".pdf") Hd Hfit eq_refl).
    rewrite result_bind. cbn [emit result snd].
    rewrite result_bind, Hai. cbn [result snd].
    rewrite (first_tool_call_eq answer Hn), bind_lift_Ok, Hcall.
    reflexivity. }
  repeat split.
  - intros patient. unfold handleTriage.
    destruct (triage_prompt patient) as [prompt|e].
    + rewrite bind_lift_Ok, result_bind, Hai. cbn [result snd].
      rewrite (first_tool_call_eq answer Hn), bind_lift_Ok, Hcall.
      eexists. split; [reflexivity|]. reflexivity.
    + exists e. split; [reflexivity|]. discriminate.
  - unfold handleGenerateSynthetic. rewrite result_bind, Hai. cbn [result snd].
    rewrite (first_tool_call_eq answer Hn), bind_lift_Ok, Hcall. reflexivity.
  - exact Hparse.
  - intros req parsed filePath bytes Hm Hp Ha Hf Hd Hfit.
    rewrite serve_eq by exact Hm.
    assert (Hdis : dispatch JSON_parse w req
                   = handleParseDocument JSON_parse w (VStr filePath)).
    { unfold dispatch, destructure. rewrite Hp, bind_lift_Ok.
      destruct (nullish parsed) eqn:Hnp.
      { destruct parsed; discriminate. }
      rewrite !bind_lift_Ok, Ha, Hf. reflexivity. }
    rewrite Hdis, (Hparse filePath bytes Hd Hfit). reflexivity.
Qed.

Lemma missing_tool_call_witness :
  result (handleGenerateSynthetic (table_parse requests)
            (constant_world 200 "{}"))
  = Throw (Error "Failed to generate synthetic data")
  /\ result (handleParseDocument (table_parse requests)
               (constant_world 200 "{}") (VStr "scan.pdf"))
     = Ok (VObj [("parsed", VNull)]).
Proof.
  destruct (missing_tool_call (table_parse requests) (constant_world 200 "{}")
              (VObj []))
    as [_ [Hgen [Hparse _]]].
  - intros fr. exists {| status := 200; text := "{}" |}.
    split; [reflexivity|]. split; reflexivity.
  - reflexivity.
  - reflexivity.
  - split; [exact Hgen|]. apply (Hparse "scan.pdf" "%PDF"); reflexivity.
Defined.

(** C3: when the model returns a tool call whose arguments hold an array of
    patients (none of them null) and the store accepts the insert, the
    handler calls the store once, with one row per element of the array, in
    order; each row copies the record, with a missing (or otherwise falsy)
    blood_pressure, heart_rate or temperature stored as null and missing
    pre_existing_conditions stored as the empty list; and the handler returns
    [{success: true, count}] with [count] the length of the array. *)
Theorem generate_synthetic_inserts
    (JSON_parse : string -> outcome value) (w : world)
    (r : http_response) (answer toolCall args : value) (ps : list value) :
  fetch w (ai_request w (user_message (VStr synthetic_prompt))
                      synthetic_tools (forced "synthetic_patients")) = inr r ->
  ok r = true ->
  JSON_parse (text r) = Ok answer ->
  first_tool_call answer = Ok toolCall ->
  truthy toolCall = true ->
  tool_arguments JSON_parse toolCall = Ok args ->
  prop args "patients" = VArr ps ->
  Forall (fun p => nullish p = false) ps ->
  (forall rows, db_insert w "patients" rows = None) ->
  exists rows,
    handleGenerateSynthetic JSON_parse w
    = ([EFetch (ai_request w (user_message (VStr synthetic_prompt))
                           synthetic_tools (forced "synthetic_patients"));
        EInsert "patients" rows],
       Ok (VObj [("success", VBool true);
                 ("count", VNum (Z.of_nat (List.length ps)))]))
    /\ List.length rows = List.length ps
    /\ Forall2 normalised ps rows.
Proof.
  intros Hf Hok Hj Htc Ht Hargs Hps Hall Hdb.
  destruct (map_synthetic_row ps Hall) as [rows [Hrows Hnorm]].
  exists rows. split; [|split].
  - unfold handleGenerateSynthetic.
    rewrite (callAI_ok JSON_parse w _ _ _ r Hf Hok), Hj.
    cbn [bind]. rewrite Htc, bind_lift_Ok, Ht. cbn [negb].
    rewrite Hargs, bind_lift_Ok.
    assert (Hn : nullish args = false) by (destruct args; now try discriminate).
    unfold destructure. rewrite Hn, bind_lift_Ok, Hps.
    cbn [call_map]. rewrite Hrows, bind_lift_Ok.
    cbn [bind emit]. rewrite Hdb. reflexivity.
  - symmetry. eapply Forall2_length. exact Hnorm.
  - exact Hnorm.
Qed.

Lemma generate_synthetic_inserts_witness :
  exists rows,
    handleGenerateSynthetic (table_parse requests)
                            (constant_world 200 "completion")
    = ([EFetch (ai_request (constant_world 200 "completion")
                           (user_message (VStr synthetic_prompt))
                           synthetic_tools (forced "synthetic_patients"));
        EInsert "patients" rows],
       Ok (VObj [("success", VBool true); ("count", VNum 2)]))
    /\ List.length rows = 2%nat
    /\ Forall2 normalised sample_patients rows.
Proof.
  apply (generate_synthetic_inserts (table_parse requests)
           (constant_world 200 "completion")
           {| status := 200; text := "completion" |}
           sample_completion sample_tool_call sample_arguments sample_patients
           eq_refl eq_refl eq_refl eq_refl eq_refl eq_refl eq_refl).
  - repeat constructor.
  - reflexivity.
Defined.



(** C4, as the spec states it, fails: the heart rate of this record is
    present (it is zero), and the prompt has no line for it. *)
Lemma prompt_presence_counterexample :
  lookup "heart_rate" resting_fields = Some (VNum 0)
  /\ exists prompt,
       triage_prompt (VObj resting_fields) = Ok prompt
       /\ ~ contains prompt "Heart Rate".
Proof.
  split; [reflexivity|]. eexists. split; [reflexivity|].
  apply includes_false. reflexivity.
Qed.

(** C4, amended: whenever the prompt of a patient is built, it is the fixed
    text around the age, the gender and the joined symptoms, followed by one
    slot per optional field, each on a line of its own: the slot holds the
    line of the field when the value of the field is truthy (for
    pre_existing_conditions: when its length is) and is empty when the field
    is missing or otherwise falsy. *)
Theorem triage_prompt_slots (patient : value) (prompt : string) :
  triage_prompt patient = Ok prompt ->
  exists age gender items symptoms l1 l2 l3 l4 l5,
    ToString (prop patient "age") = Ok age
    /\ ToString (prop patient "gender") = Ok gender
    /\ prop patient "symptoms" = VArr items
    /\ join ", " items = Ok symptoms
    /\ slot patient "symptoms_text" "- Additional symptoms: " "" l1
    /\ slot patient "blood_pressure" "- Blood Pressure: " "" l2
    /\ slot patient "heart_rate" "- Heart Rate: " " bpm" l3
    /\ slot patient "temperature" "- Temperature: " "Â°F" l4
    /\ conditions_slot patient l5
    /\ prompt
       = prompt_head
         ++ "- Age: " ++ age ++ nl
         ++ "- Gender: " ++ gender ++ nl
         ++ "- Symptoms: " ++ symptoms ++ nl
         ++ l1 ++ nl ++ l2 ++ nl ++ l3 ++ nl ++ l4 ++ nl ++ l5
         ++ prompt_tail.
Proof.
  unfold triage_prompt, get_prop at 1 2 3.
  destruct (nullish patient) eqn:Hn; [discriminate|]. cbn [obind].
  destruct (ToString (prop patient "age")) as [age|e]; [|discriminate].
  cbn [obind].
  destruct (ToString (prop patient "gender")) as [gender|e]; [|discriminate].
  cbn [obind].
  destruct (prop patient "symptoms") as [| |b|n|a|items|fields] eqn:Hs;
    cbn [call_join obind]; try discriminate.
  destruct (join ", " items) as [symptoms|e] eqn:Hj; [|discriminate].
  cbn [obind].
  destruct (optional_line patient "symptoms_text" _ _) as [l1|e] eqn:H1;
    [|discriminate]. cbn [obind].
  destruct (optional_line patient "blood_pressure" _ _) as [l2|e] eqn:H2;
    [|discriminate]. cbn [obind].
  destruct (optional_line patient "heart_rate" _ _) as [l3|e] eqn:H3;
    [|discriminate]. cbn [obind].
  destruct (optional_line patient "temperature" _ _) as [l4|e] eqn:H4;
    [|discriminate]. cbn [obind].
  destruct (conditions_line patient) as [l5|e] eqn:H5; [|discriminate].
  cbn [obind]. intros [= <-].
  exists age, gender, items, symptoms, l1, l2, l3, l4, l5.
  repeat split; auto using optional_line_slot, conditions_line_slot.
Qed.

Lemma triage_prompt_slots_witness :
  exists prompt l3 l4,
    triage_prompt (VObj resting_fields) = Ok prompt
    /\ slot (VObj resting_fields) "heart_rate" "- Heart Rate: " " bpm" l3
    /\ slot (VObj resting_fields) "temperature" "- Temperature: " "Â°F" l4.
Proof.
  destruct (triage_prompt_slots (VObj resting_fields) _ eq_refl)
    as (age & gender & items & symptoms & l1 & l2 & l3 & l4 & l5 & H).
  eexists. exists l3, l4. split; [reflexivity|]. split; apply H.
Defined.

(** * Further properties: the shape of a run *)

Section Traces.

Variable JSON_parse : string -> outcome value.
Variable w : world.

Lemma handleTriage_trace (patient : value) :
  trace (handleTriage JSON_parse w patient) = []
  \/ exists m log,
       trace (handleTriage JSON_parse w patient)
       = EFetch (ai_request w m triage_tools (forced "triage_result")) :: log
       /\ gateway_log log.
Proof.
  unfold handleTriage.
  destruct (triage_prompt patient) as [prompt|e]; [|now left].
  rewrite bind_lift_Ok. right. exists (user_message (VStr prompt)).
  match goal with |- context [bind (callAI _ _ ?m ?t ?c) ?k] =>
    destruct (bind_callAI_trace JSON_parse w m t c k) as [[log [Hlog [-> _]]]|[a [-> _]]]
  end.
  - now exists log.
  - exists []. split; [|now left]. f_equal. silent.
Qed.

Lemma handleParseDocument_trace (filePath : value) :
  exists rest,
    trace (handleParseDocument JSON_parse w filePath)
    = EDownload "health-documents" filePath :: rest
    /\ (rest = []
        \/ (exists bytes, storage_download w "health-documents" filePath
                          = inr bytes)
           /\ exists m log,
                rest = EFetch (ai_request w m parse_tools
                                 (forced "extracted_patient_data")) :: log
                /\ gateway_log log).
Proof.
  unfold handleParseDocument. rewrite trace_bind.
  cbn [emit trace result fst snd app].
  destruct (storage_download w "health-documents" filePath) as [e|bytes].
  { exists []. split; [reflexivity | now left]. }
  destruct (fromCharCode_spread w bytes) as [chars|e].
  2: { exists []. split; [reflexivity | now left]. }
  rewrite bind_lift_Ok.
  destruct (call_endsWith "filePath" filePath ".pdf") as [isPdf|e].
  2: { exists []. split; [reflexivity | now left]. }
  rewrite bind_lift_Ok. eexists. split; [reflexivity|]. right.
  split; [now exists bytes|].
  exists (parse_messages (mimeType isPdf) (btoa chars)).
  match goal with |- context [bind (callAI _ _ ?m ?t ?c) ?k] =>
    destruct (bind_callAI_trace JSON_parse w m t c k) as [[log [Hlog [-> _]]]|[a [-> _]]]
  end.
  - now exists log.
  - exists []. split; [|now left]. f_equal. silent.
Qed.

Lemma handleGenerateSynthetic_trace :
  exists log,
    trace (handleGenerateSynthetic JSON_parse w)
    = EFetch (ai_request w (user_message (VStr synthetic_prompt))
                         synthetic_tools (forced "synthetic_patients")) :: log
    /\ (gateway_log log \/ exists rows, log = [EInsert "patients" rows]).
Proof.
  unfold handleGenerateSynthetic.
  match goal with |- context [bind (callAI _ _ ?m ?t ?c) ?k] =>
    destruct (bind_callAI_trace JSON_parse w m t c k) as [[log [Hlog [-> _]]]|[a [-> _]]]
  end.
  - exists log. split; [reflexivity | now left].
  - eexists. split; [reflexivity|].
    destruct (first_tool_call a) as [tc|e]; [|left; now left].
    rewrite bind_lift_Ok. destruct (truthy tc); cbn [negb]; [|left; now left].
    destruct (tool_arguments JSON_parse tc) as [args|e]; [|left; now left].
    rewrite bind_lift_Ok.
    destruct (destructure "JSON.parse(...)" args "patients") as [ps|e];
      [|left; now left].
    rewrite bind_lift_Ok.
    destruct (call_map "patients" ps synthetic_row) as [rows|e];
      [|left; now left].
    rewrite bind_lift_Ok, trace_bind. cbn [emit trace result fst snd app].
    right. exists rows. f_equal.
    destruct (db_insert w "patients" rows); [reflexivity|]. silent.
Qed.

(** What [dispatch] runs: nothing that leaves a trace, or one of the three
    handlers on the fields of the parsed body. *)
Lemma dispatch_cases (req : request) :
  (trace (dispatch JSON_parse w req) = []
   /\ exists e, result (dispatch JSON_parse w req) = Throw e)
  \/ exists parsed,
       JSON_parse (req_body req) = Ok parsed
       /\ nullish parsed = false
       /\ ((prop parsed "action" = VStr "triage"
            /\ dispatch JSON_parse w req
               = handleTriage JSON_parse w (prop parsed "patient"))
           \/ (prop parsed "action" = VStr "parse-document"
               /\ dispatch JSON_parse w req
                  = handleParseDocument JSON_parse w (prop parsed "filePath"))
           \/ (prop parsed "action" = VStr "generate-synthetic"
               /\ dispatch JSON_parse w req
                  = handleGenerateSynthetic JSON_parse w)).
Proof.
  unfold dispatch, destructure.
  destruct (JSON_parse (req_body req)) as [parsed|e];
    [|left; split; [reflexivity | now exists e]].
  rewrite bind_lift_Ok.
  destruct (nullish parsed) eqn:Hn;
    [left; split; [reflexivity | now eexists]|].
  rewrite !bind_lift_Ok.
  assert (Hunknown : forall action,
    trace (lift (A := value)
             (s <~ ToString action ;; Throw (Error ("Unknown action: " ++ s))))
    = []
    /\ exists e,
         result (lift (A := value)
             (s <~ ToString action ;; Throw (Error ("Unknown action: " ++ s))))
         = Throw e).
  { intros action. split; [reflexivity|].
    unfold lift, result, snd. destruct (ToString action); now eexists. }
  destruct (prop parsed "action") as [| |b|n|a|l|fields] eqn:Ha;
    try (left; apply Hunknown).
  destruct (String.eqb_spec a "triage") as [->|_].
  { right. exists parsed. split; [reflexivity|]. split; [exact Hn|].
    left. now split. }
  destruct (String.eqb_spec a "parse-document") as [->|_].
  { right. exists parsed. split; [reflexivity|]. split; [exact Hn|].
    right. left. now split. }
  destruct (String.eqb_spec a "generate-synthetic") as [->|_].
  { right. exists parsed. split; [reflexivity|]. split; [exact Hn|].
    right. right. now split. }
  left. apply Hunknown.
Qed.

(** The trace of the service: the trace of [dispatch], with the log line of
    the catch block after it when [dispatch] throws. *)
Lemma serve_trace (req : request) :
  fst (serve JSON_parse w req) = []
  \/ fst (serve JSON_parse w req) = trace (dispatch JSON_parse w req)
  \/ exists e, fst (serve JSON_parse w req)
               = (trace (dispatch JSON_parse w req) ++ [EConsoleError e])%list.
Proof.
  unfold serve. destruct (String.eqb (req_method req) "OPTIONS"); [now left|].
  destruct (dispatch JSON_parse w req) as [t [v|e]]; [right; now left|].
  right. right. now exists e.
Qed.

End Traces.

Lemma calls_console (t : list event) (e : exn) :
  calls (t ++ [EConsoleError e]) = calls t
  /\ gateway_calls (t ++ [EConsoleError e]) = gateway_calls t.
Proof.
  unfold calls, gateway_calls. rewrite !filter_app, !length_app. simpl.
  split; apply Nat.add_0_r.
Qed.

Lemma calls_gateway_log (log : list event) :
  gateway_log log -> calls log = 0%nat /\ gateway_calls log = 0%nat.
Proof. intros [->|[s [t ->]]]; split; reflexivity. Qed.

Lemma in_gateway_log (log : list event) (ev : event) :
  gateway_log log -> In ev log -> network ev = false.
Proof.
  intros [->|[s [t ->]]]; [intros []|]. intros [<-|[]]. reflexivity.
Qed.

(** The calls to collaborators that [dispatch] makes, by action. *)
Lemma dispatch_network (JSON_parse : string -> outcome value) (w : world)
      (req : request) (ev : event) :
  In ev (trace (dispatch JSON_parse w req)) ->
  network ev = true ->
  exists parsed,
    JSON_parse (req_body req) = Ok parsed
    /\ nullish parsed = false
    /\ ((prop parsed "action" = VStr "triage"
         /\ exists m, ev = EFetch (ai_request w m triage_tools
                                     (forced "triage_result")))
        \/ (prop parsed "action" = VStr "parse-document"
            /\ (ev = EDownload "health-documents" (prop parsed "filePath")
                \/ exists m, ev = EFetch (ai_request w m parse_tools
                                            (forced "extracted_patient_data"))))
        \/ (prop parsed "action" = VStr "generate-synthetic"
            /\ ((exists m, ev = EFetch (ai_request w m synthetic_tools
                                          (forced "synthetic_patients")))
                \/ exists rows, ev = EInsert "patients" rows))).
Proof.
  intros Hin Hnet.
  destruct (dispatch_cases JSON_parse w req)
    as [[Ht _]|[parsed [Hp [Hn Hcase]]]].
  { rewrite Ht in Hin. destruct Hin. }
  exists parsed. split; [exact Hp|]. split; [exact Hn|].
  destruct Hcase as [[Ha Hd]|[[Ha Hd]|[Ha Hd]]]; rewrite Hd in Hin.
  - left. split; [exact Ha|].
    destruct (handleTriage_trace JSON_parse w (prop parsed "patient"))
      as [Ht|[m [log [Ht Hlog]]]]; rewrite Ht in Hin; [destruct Hin|].
    destruct Hin as [<-|Hin]; [now exists m|].
    apply (in_gateway_log _ _ Hlog) in Hin. congruence.
  - right. left. split; [exact Ha|].
    destruct (handleParseDocument_trace JSON_parse w (prop parsed "filePath"))
      as [rest [Ht Hrest]]. rewrite Ht in Hin.
    destruct Hin as [<-|Hin]; [now left|].
    destruct Hrest as [->|[_ [m [log [-> Hlog]]]]]; [destruct Hin|].
    destruct Hin as [<-|Hin]; [right; now exists m|].
    apply (in_gateway_log _ _ Hlog) in Hin. congruence.
  - right. right. split; [exact Ha|].
    destruct (handleGenerateSynthetic_trace JSON_parse w)
      as [log [Ht Hlog]]. rewrite Ht in Hin.
    destruct Hin as [<-|Hin]; [left; now eexists|].
    destruct Hlog as [Hlog|[rows ->]].
    + apply (in_gateway_log _ _ Hlog) in Hin. congruence.
    + destruct Hin as [<-|[]]. right. now exists rows.
Qed.

Lemma serve_network (JSON_parse : string -> outcome value) (w : world)
      (req : request) (ev : event) :
  In ev (fst (serve JSON_parse w req)) ->
  network ev = true ->
  String.eqb (req_method req) "OPTIONS" = false
  /\ In ev (trace (dispatch JSON_parse w req)).
Proof.
  unfold serve. destruct (String.eqb (req_method req) "OPTIONS");
    [intros []|].
  intros Hin Hnet. split; [reflexivity|].
  destruct (dispatch JSON_parse w req) as [t [v|e]]; [exact Hin|].
  simpl in Hin. apply in_app_or in Hin.
  destruct Hin as [Hin|[<-|[]]]; [exact Hin | discriminate].
Qed.

(** X1: every response carries the two CORS headers, and every response to
    a request other than OPTIONS also declares its content as JSON. *)
Theorem cors_on_every_response
    (JSON_parse : string -> outcome value) (w : world) (req : request) :
  incl corsHeaders (resp_headers (snd (serve JSON_parse w req)))
  /\ (String.eqb (req_method req) "OPTIONS" = false ->
      In ("Content-Type", "application/json")
         (resp_headers (snd (serve JSON_parse w req)))).
Proof.
  unfold serve. destruct (String.eqb (req_method req) "OPTIONS").
  - split; [apply incl_refl | discriminate].
  - destruct (dispatch JSON_parse w req) as [t [v|e]];
      cbn [snd resp_headers error_response]; unfold jsonHeaders;
      (split; [apply incl_appl, incl_refl
              | intros _; apply in_or_app; right; now left]).
Qed.

Lemma cors_on_every_response_witness :
  In ("Content-Type", "application/json")
     (resp_headers (snd (serve (table_parse requests)
                               (constant_world 200 "{}") (post "export")))).
Proof.
  apply (proj2 (cors_on_every_response (table_parse requests)
                  (constant_world 200 "{}") (post "export"))).
  reflexivity.
Defined.

(** X2: the status of a response is 200, 402, 429 or 500; it is 200 exactly
    for an OPTIONS request and for a request whose handler returned; and
    every error that reaches the catch block is logged and sent as
    [{error: message}]. *)
Theorem status_range
    (JSON_parse : string -> outcome value) (w : world) (req : request) :
  let resp := snd (serve JSON_parse w req) in
  In (resp_status resp) [200; 402; 429; 500]
  /\ (resp_status resp = 200
      <-> String.eqb (req_method req) "OPTIONS" = true
          \/ exists v, result (dispatch JSON_parse w req) = Ok v)
  /\ (forall e,
        String.eqb (req_method req) "OPTIONS" = false ->
        result (dispatch JSON_parse w req) = Throw e ->
        In (EConsoleError e) (fst (serve JSON_parse w req))
        /\ resp_body resp
           = Some (VObj [("error", match message e with
                                   | Some m => VStr m
                                   | None => VUndefined
                                   end)])).
Proof.
  unfold serve. destruct (String.eqb (req_method req) "OPTIONS").
  { cbn. split; [now left|]. split; [|discriminate].
    split; [now left | reflexivity]. }
  destruct (dispatch JSON_parse w req) as [t [v|e]]; cbn -[includes].
  - split; [now left|]. split.
    + split; [right; now exists v | reflexivity].
    + discriminate.
  - assert (Hs : In (if message_includes e "Rate limit" then 429
                     else if message_includes e "Payment" then 402 else 500)
                    [402; 429; 500]).
    { destruct (message_includes e "Rate limit"); [right; now left|].
      destruct (message_includes e "Payment"); [now left|].
      right. right. now left. }
    split; [now right|]. split.
    + split.
      * intros H. rewrite H in Hs.
        destruct Hs as [Hs|[Hs|[Hs|[]]]]; discriminate Hs.
      * intros [H|[v H]]; discriminate H.
    + intros e' _ [= <-]. split; [|reflexivity].
      apply in_or_app. right. now left.
Qed.

Lemma status_range_witness :
  In (EConsoleError (Error "Unknown action: export"))
     (fst (serve (table_parse requests) (constant_world 200 "{}")
                 (post "export")))
  /\ resp_body (snd (serve (table_parse requests) (constant_world 200 "{}")
                           (post "export")))
     = Some (VObj [("error", VStr "Unknown action: export")]).
Proof.
  apply (proj2 (proj2 (status_range (table_parse requests)
                         (constant_world 200 "{}") (post "export")))
           (Error "Unknown action: export")).
  - reflexivity.
  - reflexivity.
Defined.

(** X3: a collaborator is called only for a request other than OPTIONS whose
    body parses and names one of the three actions: triage calls the gateway
    only, parse-document reads the storage under the [filePath] of the
    request and may call the gateway, and generate-synthetic calls the
    gateway and may insert into the table "patients". *)
Theorem collaborators_need_known_action
    (JSON_parse : string -> outcome value) (w : world) (req : request)
    (ev : event) :
  In ev (fst (serve JSON_parse w req)) ->
  network ev = true ->
  String.eqb (req_method req) "OPTIONS" = false
  /\ exists parsed,
       JSON_parse (req_body req) = Ok parsed
       /\ ((prop parsed "action" = VStr "triage" /\ is_fetch ev = true)
           \/ (prop parsed "action" = VStr "parse-document"
               /\ (ev = EDownload "health-documents" (prop parsed "filePath")
                   \/ is_fetch ev = true))
           \/ (prop parsed "action" = VStr "generate-synthetic"
               /\ (is_fetch ev = true
                   \/ exists rows, ev = EInsert "patients" rows))).
Proof.
  intros Hin Hnet.
  destruct (serve_network JSON_parse w req ev Hin Hnet) as [Hm Hd].
  split; [exact Hm|].
  destruct (dispatch_network JSON_parse w req ev Hd Hnet)
    as [parsed [Hp [_ Hcase]]].
  exists parsed. split; [exact Hp|].
  destruct Hcase as [[Ha [m ->]]|[[Ha [->|[m ->]]]|[Ha [[m ->]|[rows ->]]]]].
  - left. now split.
  - right. left. split; [exact Ha | now left].
  - right. left. split; [exact Ha | now right].
  - right. right. split; [exact Ha | now left].
  - right. right. split; [exact Ha|]. right. now exists rows.
Qed.

Lemma collaborators_need_known_action_witness :
  exists parsed,
    table_parse requests "generate" = Ok parsed
    /\ prop parsed "action" = VStr "generate-synthetic".
Proof.
  destruct (collaborators_need_known_action (table_parse requests)
              (constant_world 200 "completion") (post "generate")
              (EInsert "patients"
                 (match map_outcome synthetic_row sample_patients with
                  | Ok rows => rows
                  | Throw _ => []
                  end)))
    as [_ [parsed [Hp _]]].
  - right. left. reflexivity.
  - reflexivity.
  - exists parsed. split; [exact Hp|].
    injection Hp as <-. reflexivity.
Defined.

(** X4: a request makes at most one call to the gateway and at most two
    calls to collaborators in all. *)
Theorem call_budget
    (JSON_parse : string -> outcome value) (w : world) (req : request) :
  (gateway_calls (fst (serve JSON_parse w req)) <= 1)%nat
  /\ (calls (fst (serve JSON_parse w req)) <= 2)%nat.
Proof.
  assert (Hd : (gateway_calls (trace (dispatch JSON_parse w req)) <= 1)%nat
               /\ (calls (trace (dispatch JSON_parse w req)) <= 2)%nat).
  { destruct (dispatch_cases JSON_parse w req)
      as [[-> _]|[parsed [_ [_ [[_ ->]|[[_ ->]|[_ ->]]]]]]].
    - split; cbn; lia.
    - destruct (handleTriage_trace JSON_parse w (prop parsed "patient"))
        as [->|[m [log [-> Hlog]]]]; [split; cbn; lia|].
      destruct (calls_gateway_log log Hlog) as [H1 H2].
      unfold calls, gateway_calls in *. cbn. lia.
    - destruct (handleParseDocument_trace JSON_parse w (prop parsed "filePath"))
        as [rest [-> [->|[_ [m [log [-> Hlog]]]]]]]; [split; cbn; lia|].
      destruct (calls_gateway_log log Hlog) as [H1 H2].
      unfold calls, gateway_calls in *. cbn. lia.
    - destruct (handleGenerateSynthetic_trace JSON_parse w)
        as [log [-> [Hlog|[rows ->]]]]; [|split; cbn; lia].
      destruct (calls_gateway_log log Hlog) as [H1 H2].
      unfold calls, gateway_calls in *. cbn. lia. }
  destruct (serve_trace JSON_parse w req) as [->|[->|[e ->]]].
  - split; cbn; lia.
  - exact Hd.
  - destruct (calls_console (trace (dispatch JSON_parse w req)) e) as [-> ->].
    exact Hd.
Qed.

(** X5: every request the service sends to the gateway is a POST to the
    completion endpoint with the bearer key, and its body holds exactly
    the model, the messages, the tools of one of the three handlers and the
    tool choice that forces the tool of that handler. *)
Theorem gateway_request_shape
    (JSON_parse : string -> outcome value) (w : world) (req : request)
    (fr : fetch_request) :
  fetched fr (fst (serve JSON_parse w req)) ->
  url fr = "https://ai.gateway.lovable.dev/v1/chat/completions"
  /\ method fr = "POST"
  /\ headers fr = [("Authorization", "Bearer " ++ LOVABLE_API_KEY w);
                   ("Content-Type", "application/json")]
  /\ keys (body fr) = ["model"; "messages"; "tools"; "tool_choice"]
  /\ prop (body fr) "model" = VStr "google/gemini-3-flash-preview"
  /\ In (prop (body fr) "tools", prop (body fr) "tool_choice") known_tools.
Proof.
  intros Hin.
  destruct (serve_network JSON_parse w req (EFetch fr) Hin eq_refl) as [_ Hd].
  destruct (dispatch_network JSON_parse w req (EFetch fr) Hd eq_refl)
    as [parsed [_ [_ Hcase]]].
  destruct Hcase
    as [[_ [m [= ->]]]|[[_ [[=]|[m [= ->]]]]|[_ [[m [= ->]]|[rows [=]]]]]];
    repeat (split; [reflexivity|]).
  - left. reflexivity.
  - right. left. reflexivity.
  - right. right. left. reflexivity.
Qed.

Lemma gateway_request_shape_witness :
  method (ai_request (constant_world 429 "slow down")
            (user_message (VStr synthetic_prompt))
            synthetic_tools (forced "synthetic_patients")) = "POST".
Proof.
  apply (gateway_request_shape (table_parse requests)
           (constant_world 429 "slow down") (post "generate")).
  left. reflexivity.
Defined.

(** * Further properties: errors of the collaborators *)

Lemma dispatch_parse_document (JSON_parse : string -> outcome value)
      (w : world) (req : request) (parsed : value) :
  JSON_parse (req_body req) = Ok parsed ->
  prop parsed "action" = VStr "parse-document" ->
  dispatch JSON_parse w req
  = handleParseDocument JSON_parse w (prop parsed "filePath").
Proof.
  intros Hp Ha. unfold dispatch, destructure. rewrite Hp, bind_lift_Ok.
  destruct (nullish parsed) eqn:Hn; [destruct parsed; discriminate|].
  now rewrite !bind_lift_Ok, Ha.
Qed.

Lemma dispatch_triage (JSON_parse : string -> outcome value)
      (w : world) (req : request) (parsed : value) :
  JSON_parse (req_body req) = Ok parsed ->
  prop parsed "action" = VStr "triage" ->
  dispatch JSON_parse w req
  = handleTriage JSON_parse w (prop parsed "patient").
Proof.
  intros Hp Ha. unfold dispatch, destructure. rewrite Hp, bind_lift_Ok.
  destruct (nullish parsed) eqn:Hn; [destruct parsed; discriminate|].
  now rewrite !bind_lift_Ok, Ha.
Qed.

(** What every gateway call returns when the gateway answers each request
    with a successful response whose body parses to [answer]. *)
Lemma callAI_answer (JSON_parse : string -> outcome value) (w : world)
      (answer : value) :
  (forall fr, exists r,
      fetch w fr = inr r /\ ok r = true /\ JSON_parse (text r) = Ok answer) ->
  forall m t c,
    callAI JSON_parse w m t c = ([EFetch (ai_request w m t c)], Ok answer).
Proof.
  intros Hgw m t c. destruct (Hgw (ai_request w m t c)) as [r [Hf [Hok Hj]]].
  rewrite (callAI_ok JSON_parse w m t c r Hf Hok). now rewrite Hj.
Qed.

(** X6: when the download of a parse-document request fails, the error of
    the storage is thrown as it is: the gateway is not called, and the
    response is the one the catch block derives from that error. *)
Theorem download_error_surfaces
    (JSON_parse : string -> outcome value) (w : world) (req : request)
    (parsed : value) (e : exn) :
  String.eqb (req_method req) "OPTIONS" = false ->
  JSON_parse (req_body req) = Ok parsed ->
  prop parsed "action" = VStr "parse-document" ->
  storage_download w "health-documents" (prop parsed "filePath") = inl e ->
  serve JSON_parse w req
  = ([EDownload "health-documents" (prop parsed "filePath"); EConsoleError e],
     error_response e).
Proof.
  intros Hm Hp Ha Hd. rewrite serve_eq by exact Hm.
  rewrite (dispatch_parse_document JSON_parse w req parsed Hp Ha).
  unfold handleParseDocument. rewrite trace_bind, result_bind.
  cbn [emit trace result fst snd app]. now rewrite Hd.
Qed.

Lemma download_error_surfaces_witness :
  serve (table_parse requests)
        (faulty_world 200 "{}" (inl (Error "Object not found")) None)
        (post "parse")
  = ([EDownload "health-documents" (VStr "scan.pdf");
      EConsoleError (Error "Object not found")],
     {| resp_status := 500;
        resp_headers := jsonHeaders;
        resp_body := Some (VObj [("error", VStr "Object not found")]) |}).
Proof.
  apply (download_error_surfaces (table_parse requests)
           (faulty_world 200 "{}" (inl (Error "Object not found")) None)
           (post "parse")
           (VObj [("action", VStr "parse-document");
                  ("filePath", VStr "scan.pdf")])
           (Error "Object not found")
           eq_refl eq_refl eq_refl eq_refl).
Defined.

(** X7: when the store rejects the insert, generate-synthetic has already
    sent it one normalised row per generated patient; the handler throws the
    error of the store as it is and reports no count. *)
Theorem insert_error_surfaces
    (JSON_parse : string -> outcome value) (w : world)
    (r : http_response) (answer toolCall args : value) (ps : list value)
    (e : exn) :
  fetch w (ai_request w (user_message (VStr synthetic_prompt))
                      synthetic_tools (forced "synthetic_patients")) = inr r ->
  ok r = true ->
  JSON_parse (text r) = Ok answer ->
  first_tool_call answer = Ok toolCall ->
  truthy toolCall = true ->
  tool_arguments JSON_parse toolCall = Ok args ->
  prop args "patients" = VArr ps ->
  Forall (fun p => nullish p = false) ps ->
  (forall rows, db_insert w "patients" rows = Some e) ->
  exists rows,
    handleGenerateSynthetic JSON_parse w
    = ([EFetch (ai_request w (user_message (VStr synthetic_prompt))
                           synthetic_tools (forced "synthetic_patients"));
        EInsert "patients" rows],
       Throw e)
    /\ Forall2 normalised ps rows.
Proof.
  intros Hf Hok Hj Htc Ht Hargs Hps Hall Hdb.
  destruct (map_synthetic_row ps Hall) as [rows [Hrows Hnorm]].
  exists rows. split; [|exact Hnorm].
  unfold handleGenerateSynthetic.
  rewrite (callAI_ok JSON_parse w _ _ _ r Hf Hok), Hj.
  cbn [bind]. rewrite Htc, bind_lift_Ok, Ht. cbn [negb].
  rewrite Hargs, bind_lift_Ok.
  assert (Hn : nullish args = false) by (destruct args; now try discriminate).
  unfold destructure. rewrite Hn, bind_lift_Ok, Hps.
  cbn [call_map]. rewrite Hrows, bind_lift_Ok.
  cbn [bind emit]. rewrite Hdb. reflexivity.
Qed.

Lemma insert_error_surfaces_witness :
  exists rows,
    handleGenerateSynthetic (table_parse requests)
      (faulty_world 200 "completion" (inr "") (Some (Error "duplicate key")))
    = ([EFetch (ai_request
                  (faulty_world 200 "completion" (inr "")
                     (Some (Error "duplicate key")))
                  (user_message (VStr synthetic_prompt))
                  synthetic_tools (forced "synthetic_patients"));
        EInsert "patients" rows],
       Throw (Error "duplicate key"))
    /\ Forall2 normalised sample_patients rows.
Proof.
  apply (insert_error_surfaces (table_parse requests)
           (faulty_world 200 "completion" (inr "")
              (Some (Error "duplicate key")))
           {| status := 200; text := "completion" |}
           sample_completion sample_tool_call sample_arguments sample_patients
           (Error "duplicate key")
           eq_refl eq_refl eq_refl eq_refl eq_refl eq_refl eq_refl).
  - repeat constructor.
  - reflexivity.
Defined.

(** X8: when the gateway answers with a tool call whose arguments parse to
    [v], the triage handler returns [v] as it is and the service sends it
    with status 200, and the document-parse handler, once the download
    succeeds and the file is encoded, returns [{parsed: v}]. *)
Theorem tool_arguments_returned
    (JSON_parse : string -> outcome value) (w : world) (answer v : value) :
  (forall fr, exists r,
      fetch w fr = inr r /\ ok r = true /\ JSON_parse (text r) = Ok answer) ->
  nullish answer = false ->
  truthy (tool_call answer) = true ->
  tool_arguments JSON_parse (tool_call answer) = Ok v ->
  (forall patient prompt,
      triage_prompt patient = Ok prompt ->
      handleTriage JSON_parse w patient
      = ([EFetch (ai_request w (user_message (VStr prompt)) triage_tools
                             (forced "triage_result"))],
         Ok v))
  /\ (forall req parsed prompt,
        String.eqb (req_method req) "OPTIONS" = false ->
        JSON_parse (req_body req) = Ok parsed ->
        prop parsed "action" = VStr "triage" ->
        triage_prompt (prop parsed "patient") = Ok prompt ->
        snd (serve JSON_parse w req)
        = {| resp_status := 200; resp_headers := jsonHeaders;
             resp_body := Some v |})
  /\ (forall filePath bytes,
        storage_download w "health-documents" (VStr filePath) = inr bytes ->
        fits w bytes = true ->
        result (handleParseDocument JSON_parse w (VStr filePath))
        = Ok (VObj [("parsed", v)])).
Proof.
  intros Hgw Hn Hcall Hargs.
  pose proof (callAI_answer JSON_parse w answer Hgw) as Hai.
  assert (Htriage : forall patient prompt,
      triage_prompt patient = Ok prompt ->
      handleTriage JSON_parse w patient
      = ([EFetch (ai_request w (user_message (VStr prompt)) triage_tools
                             (forced "triage_result"))],
         Ok v)).
  { intros patient prompt Hprompt. unfold handleTriage.
    rewrite Hprompt, bind_lift_Ok, Hai. cbn [bind].
    rewrite (first_tool_call_eq answer Hn), bind_lift_Ok, Hcall. cbn [negb].
    now rewrite Hargs. }
  split; [exact Htriage|]. split.
  - intros req parsed prompt Hm Hp Ha Hprompt.
    rewrite serve_eq by exact Hm.
    rewrite (dispatch_triage JSON_parse w req parsed Hp Ha).
    now rewrite (Htriage _ prompt Hprompt).
  - intros filePath bytes Hd Hfit.
    rewrite (handleParseDocument_encoded JSON_parse w (VStr filePath) bytes
               (endsWith filePath ".pdf") Hd Hfit eq_refl).
    rewrite result_bind. cbn [emit result snd].
    rewrite result_bind, Hai. cbn [result snd].
    rewrite (first_tool_call_eq answer Hn), bind_lift_Ok, Hcall. cbn [negb].
    now rewrite Hargs.
Qed.

Lemma tool_arguments_returned_witness :
  snd (serve (table_parse more_requests)
             (constant_world 200 "completion-triage") (post "triage"))
  = {| resp_status := 200; resp_headers := jsonHeaders;
       resp_body := Some (VObj [("risk_level", VStr "High")]) |}.
Proof.
  destruct (tool_arguments_returned (table_parse more_requests)
              (constant_world 200 "completion-triage")
              (match lookup "completion-triage" more_requests with
               | Some a => a | None => VNull end)
              (VObj [("risk_level", VStr "High")]))
    as [_ [Hserve _]].
  - intros fr. exists {| status := 200; text := "completion-triage" |}.
    split; [reflexivity|]. split; reflexivity.
  - reflexivity.
  - reflexivity.
  - reflexivity.
  - eapply Hserve; reflexivity.
Defined.

(** X9: when the gateway answers with a tool call whose arguments cannot be
    read or parsed, each handler that got to the gateway throws that error:
    the document-parse handler, once the download succeeds and the file is
    encoded, does not fall back to [{parsed: null}], and generate-synthetic
    inserts nothing. *)
Theorem broken_tool_arguments
    (JSON_parse : string -> outcome value) (w : world) (answer : value)
    (e : exn) :
  (forall fr, exists r,
      fetch w fr = inr r /\ ok r = true /\ JSON_parse (text r) = Ok answer) ->
  nullish answer = false ->
  truthy (tool_call answer) = true ->
  tool_arguments JSON_parse (tool_call answer) = Throw e ->
  (forall patient prompt,
      triage_prompt patient = Ok prompt ->
      result (handleTriage JSON_parse w patient) = Throw e)
  /\ (forall filePath bytes,
        storage_download w "health-documents" (VStr filePath) = inr bytes ->
        fits w bytes = true ->
        result (handleParseDocument JSON_parse w (VStr filePath)) = Throw e)
  /\ handleGenerateSynthetic JSON_parse w
     = ([EFetch (ai_request w (user_message (VStr synthetic_prompt))
                            synthetic_tools (forced "synthetic_patients"))],
        Throw e).
Proof.
  intros Hgw Hn Hcall Hargs.
  pose proof (callAI_answer JSON_parse w answer Hgw) as Hai.
  split; [|split].
  - intros patient prompt Hprompt. unfold handleTriage.
    rewrite Hprompt, bind_lift_Ok, Hai. cbn [bind].
    rewrite (first_tool_call_eq answer Hn), bind_lift_Ok, Hcall. cbn [negb].
    now rewrite Hargs.
  - intros filePath bytes Hd Hfit.
    rewrite (handleParseDocument_encoded JSON_parse w (VStr filePath) bytes
               (endsWith filePath ".pdf") Hd Hfit eq_refl).
    rewrite result_bind. cbn [emit result snd].
    rewrite result_bind, Hai. cbn [result snd].
    rewrite (first_tool_call_eq answer Hn), bind_lift_Ok, Hcall. cbn [negb].
    now rewrite Hargs.
  - unfold handleGenerateSynthetic. rewrite Hai. cbn [bind].
    rewrite (first_tool_call_eq answer Hn), bind_lift_Ok, Hcall. cbn [negb].
    now rewrite Hargs.
Qed.

Lemma broken_tool_arguments_witness :
  result (handleParseDocument (table_parse more_requests)
            (constant_world 200 "completion-broken") (VStr "scan.pdf"))
  = Throw (Exn (Some "Unexpected token in JSON")).
Proof.
  destruct (broken_tool_arguments (table_parse more_requests)
              (constant_world 200 "completion-broken")
              (match lookup "completion-broken" more_requests with
               | Some a => a | None => VNull end)
              (Exn (Some "Unexpected token in JSON")))
    as [_ [Hparse _]].
  - intros fr. exists {| status := 200; text := "completion-broken" |}.
    split; [reflexivity|]. split; reflexivity.
  - reflexivity.
  - reflexivity.
  - reflexivity.
  - apply (Hparse "scan.pdf" "%PDF"); reflexivity.
Defined.

(** X10: when the body of a successful gateway response is the JSON value
    null, reading [result.choices] throws in each handler that got to the
    gateway, the document-parse handler included (once the download succeeds
    and the file is encoded), and the catch block answers that error with
    status 500. *)
Theorem null_gateway_body
    (JSON_parse : string -> outcome value) (w : world) :
  (forall fr, exists r,
      fetch w fr = inr r /\ ok r = true /\ JSON_parse (text r) = Ok VNull) ->
  let e := TypeError "Cannot read properties of null (reading 'choices')" in
  (forall patient prompt,
      triage_prompt patient = Ok prompt ->
      result (handleTriage JSON_parse w patient) = Throw e)
  /\ (forall filePath bytes,
        storage_download w "health-documents" (VStr filePath) = inr bytes ->
        fits w bytes = true ->
        result (handleParseDocument JSON_parse w (VStr filePath)) = Throw e)
  /\ result (handleGenerateSynthetic JSON_parse w) = Throw e
  /\ resp_status (error_response e) = 500.
Proof.
  intros Hgw e.
  pose proof (callAI_answer JSON_parse w VNull Hgw) as Hai.
  split; [|split; [|split]].
  - intros patient prompt Hprompt. unfold handleTriage.
    now rewrite Hprompt, bind_lift_Ok, Hai.
  - intros filePath bytes Hd Hfit.
    rewrite (handleParseDocument_encoded JSON_parse w (VStr filePath) bytes
               (endsWith filePath ".pdf") Hd Hfit eq_refl).
    rewrite result_bind. cbn [emit result snd].
    now rewrite result_bind, Hai.
  - unfold handleGenerateSynthetic. now rewrite Hai.
  - reflexivity.
Qed.

Lemma null_gateway_body_witness :
  result (handleParseDocument (table_parse more_requests)
            (constant_world 200 "null") (VStr "scan.pdf"))
  = Throw (TypeError "Cannot read properties of null (reading 'choices')").
Proof.
  destruct (null_gateway_body (table_parse more_requests)
              (constant_world 200 "null"))
    as [_ [Hparse _]].
  - intros fr. exists {| status := 200; text := "null" |}.
    split; [reflexivity|]. split; reflexivity.
  - apply (Hparse "scan.pdf" "%PDF"); reflexivity.
Defined.

(** X11: a parse-document run whose path is not a string (a missing
    [filePath], say) fails without calling the gateway: either the download
    fails or [filePath.endsWith] throws. *)
Theorem parse_document_needs_string_path
    (JSON_parse : string -> outcome value) (w : world) (filePath : value) :
  (forall s, filePath <> VStr s) ->
  (exists e, result (handleParseDocument JSON_parse w filePath) = Throw e)
  /\ trace (handleParseDocument JSON_parse w filePath)
     = [EDownload "health-documents" filePath].
Proof.
  intros Hs. unfold handleParseDocument. rewrite trace_bind, result_bind.
  cbn [emit trace result fst snd app].
  destruct (storage_download w "health-documents" filePath) as [e|bytes].
  - split; [now exists e | reflexivity].
  - destruct (fromCharCode_spread w bytes) as [chars|e];
      [rewrite bind_lift_Ok | split; [now exists e | reflexivity]].
    destruct filePath as [| |b|n|s|l|fields]; try (now destruct (Hs s));
      (split; [now eexists | reflexivity]).
Qed.

Lemma parse_document_needs_string_path_witness :
  trace (handleParseDocument (table_parse requests) (constant_world 200 "{}")
                             VUndefined)
  = [EDownload "health-documents" VUndefined].
Proof.
  apply (parse_document_needs_string_path (table_parse requests)
           (constant_world 200 "{}") VUndefined).
  intros s. discriminate.
Defined.

(** * Further properties: prompts and rows *)

(** [join] on an array of strings never throws and gives the strings
    separated by the separator. *)
Lemma call_join_map_VStr (src sep : string) (l : list string) :
  call_join src (VArr (map VStr l)) sep = Ok (String.concat sep l).
Proof.
  cbn [call_join]. unfold join.
  induction l as [|x rest IH]; [reflexivity|].
  cbn [map join_by nullish ToString obind] in *.
  destruct rest as [|y rest]; [reflexivity|].
  cbn [map] in *. rewrite IH. reflexivity.
Qed.

Lemma append_assoc3 (a b c : string) : (a ++ b) ++ c = a ++ b ++ c.
Proof. induction a as [|x a IH]; simpl; [reflexivity | now rewrite IH]. Qed.

(** X12: when the symptoms of a patient are an array of strings, every
    prompt built for that patient contains the line "- Symptoms: " followed
    by the symptoms separated by ", ". *)
Theorem symptoms_line (patient : value) (symptoms : list string)
        (prompt : string) :
  prop patient "symptoms" = VArr (map VStr symptoms) ->
  triage_prompt patient = Ok prompt ->
  contains prompt ("- Symptoms: " ++ String.concat ", " symptoms ++ nl).
Proof.
  intros Hs. unfold triage_prompt, get_prop at 1 2 3.
  destruct (nullish patient); [discriminate|]. cbn [obind].
  destruct (ToString (prop patient "age")) as [age|e]; [|discriminate].
  cbn [obind].
  destruct (ToString (prop patient "gender")) as [gender|e]; [|discriminate].
  cbn [obind]. rewrite Hs, call_join_map_VStr. cbn [obind].
  destruct (optional_line patient "symptoms_text" _ _) as [l1|e];
    [|discriminate]. cbn [obind].
  destruct (optional_line patient "blood_pressure" _ _) as [l2|e];
    [|discriminate]. cbn [obind].
  destruct (optional_line patient "heart_rate" _ _) as [l3|e];
    [|discriminate]. cbn [obind].
  destruct (optional_line patient "temperature" _ _) as [l4|e];
    [|discriminate]. cbn [obind].
  destruct (conditions_line patient) as [l5|e]; [|discriminate].
  cbn [obind]. intros [= <-].
  exists (prompt_head ++ "- Age: " ++ age ++ nl ++ "- Gender: " ++ gender ++ nl),
         (l1 ++ nl ++ l2 ++ nl ++ l3 ++ nl ++ l4 ++ nl ++ l5 ++ prompt_tail).
  rewrite !append_assoc3. reflexivity.
Qed.

Lemma symptoms_line_witness :
  match triage_prompt (VObj resting_fields) with
  | Ok prompt => contains prompt ("- Symptoms: cough, fever" ++ nl)
  | Throw _ => False
  end.
Proof.
  apply (symptoms_line (VObj resting_fields) ["cough"; "fever"]
           (match triage_prompt (VObj resting_fields) with
            | Ok prompt => prompt
            | Throw _ => ""
            end)).
  - reflexivity.
  - reflexivity.
Defined.

Lemma strings_of (l : list value) :
  forallb is_string l = true -> exists strs, l = map VStr strs.
Proof.
  induction l as [|x rest IH]; cbn [forallb]; [now exists []|].
  intros H. apply andb_true_iff in H. destruct H as [Hx Hrest].
  destruct (IH Hrest) as [strs ->].
  destruct x; try discriminate Hx. now exists (s :: strs).
Qed.

Lemma call_join_strings (src sep : string) (v : value) :
  is_strings v = true -> exists s, call_join src v sep = Ok s.
Proof.
  destruct v; try discriminate. cbn [is_strings]. intros H.
  destruct (strings_of _ H) as [strs ->].
  eexists. apply call_join_map_VStr.
Qed.

Lemma optional_line_typed (patient : value) (k label suffix : string)
      (ty : value -> bool) :
  (forall v, ty v = true -> exists s, ToString v = Ok s) ->
  nullish patient = false ->
  optional ty (prop patient k) = true ->
  exists line, optional_line patient k label suffix = Ok line.
Proof.
  intros Hty Hn Ho. unfold optional_line, get_prop. rewrite Hn. cbn [obind].
  destruct (truthy (prop patient k)) eqn:Ht; [|now eexists].
  unfold optional in Ho. apply orb_true_iff in Ho.
  destruct Ho as [Ho|Ho].
  - destruct (prop patient k); discriminate.
  - destruct (Hty _ Ho) as [s ->]. now eexists.
Qed.

Lemma ToString_number (v : value) :
  is_number v = true -> exists s, ToString v = Ok s.
Proof. destruct v; try discriminate. now eexists. Qed.

Lemma ToString_string (v : value) :
  is_string v = true -> exists s, ToString v = Ok s.
Proof. destruct v; try discriminate. now eexists. Qed.

Lemma conditions_line_typed (patient : value) :
  nullish patient = false ->
  optional is_strings (prop patient "pre_existing_conditions") = true ->
  exists line, conditions_line patient = Ok line.
Proof.
  intros Hn Ho. unfold conditions_line, get_prop. rewrite Hn. cbn [obind].
  destruct (truthy (opt_prop (prop patient "pre_existing_conditions") "length"))
    eqn:Ht; [|now eexists].
  unfold optional in Ho. apply orb_true_iff in Ho.
  destruct Ho as [Ho|Ho].
  - destruct (prop patient "pre_existing_conditions"); discriminate.
  - destruct (call_join_strings "patient.pre_existing_conditions" ", " _ Ho)
      as [s ->].
    now eexists.
Qed.

(** X13: for a patient record typed as the tool schemas type it, the prompt
    is built, and the triage handler calls the gateway exactly once: its
    trace is one request, with that prompt as the content of its one user
    message, followed by the log of that call. *)
Theorem valid_patient_prompt
    (JSON_parse : string -> outcome value) (w : world) (patient : value) :
  valid_patient patient = true ->
  exists prompt log,
    triage_prompt patient = Ok prompt
    /\ trace (handleTriage JSON_parse w patient)
       = EFetch (ai_request w (user_message (VStr prompt)) triage_tools
                            (forced "triage_result")) :: log
    /\ gateway_log log
    /\ gateway_calls (trace (handleTriage JSON_parse w patient)) = 1%nat.
Proof.
  unfold valid_patient. rewrite !andb_true_iff, negb_true_iff.
  intros [[[[[[[[Hn Hage] Hgender] Hsym] H1] H2] H3] H4] H5].
  assert (Hprompt : exists prompt, triage_prompt patient = Ok prompt).
  { unfold triage_prompt, get_prop at 1 2 3. rewrite Hn. cbn [obind].
    destruct (ToString_number _ Hage) as [age ->]. cbn [obind].
    destruct (ToString_string _ Hgender) as [gender ->]. cbn [obind].
    destruct (call_join_strings "patient.symptoms" ", " _ Hsym) as [sym ->].
    cbn [obind].
    destruct (optional_line_typed patient "symptoms_text"
                "- Additional symptoms: " "" is_string ToString_string Hn H1)
      as [l1 ->]. cbn [obind].
    destruct (optional_line_typed patient "blood_pressure"
                "- Blood Pressure: " "" is_string ToString_string Hn H2)
      as [l2 ->]. cbn [obind].
    destruct (optional_line_typed patient "heart_rate"
                "- Heart Rate: " " bpm" is_number ToString_number Hn H3)
      as [l3 ->]. cbn [obind].
    destruct (optional_line_typed patient "temperature"
                "- Temperature: " "Â°F" is_number ToString_number Hn H4)
      as [l4 ->]. cbn [obind].
    destruct (conditions_line_typed patient Hn H5) as [l5 ->]. cbn [obind].
    now eexists. }
  destruct Hprompt as [prompt Hprompt].
  assert (Ht : exists log,
    trace (handleTriage JSON_parse w patient)
    = EFetch (ai_request w (user_message (VStr prompt)) triage_tools
                         (forced "triage_result")) :: log
    /\ gateway_log log).
  { unfold handleTriage. rewrite Hprompt, bind_lift_Ok.
    match goal with |- context [bind (callAI _ _ ?m ?t ?c) ?k] =>
      destruct (bind_callAI_trace JSON_parse w m t c k)
        as [[log [Hlog [-> _]]]|[a [-> _]]]
    end.
    - now exists log.
    - exists []. split; [|now left]. f_equal. silent. }
  destruct Ht as [log [Ht Hlog]]. exists prompt, log.
  split; [exact Hprompt|]. split; [exact Ht|]. split; [exact Hlog|].
  rewrite Ht. destruct (calls_gateway_log log Hlog) as [_ H].
  unfold gateway_calls in *. cbn [filter is_fetch List.length]. now rewrite H.
Qed.

Lemma valid_patient_prompt_witness :
  exists prompt log,
    triage_prompt (VObj resting_fields) = Ok prompt
    /\ trace (handleTriage (table_parse requests) (constant_world 200 "{}")
                           (VObj resting_fields))
       = EFetch (ai_request (constant_world 200 "{}")
                            (user_message (VStr prompt)) triage_tools
                            (forced "triage_result")) :: log
    /\ gateway_log log
    /\ gateway_calls (trace (handleTriage (table_parse requests)
                               (constant_world 200 "{}")
                               (VObj resting_fields))) = 1%nat.
Proof.
  apply (valid_patient_prompt (table_parse requests)
           (constant_world 200 "{}") (VObj resting_fields)).
  reflexivity.
Defined.

Lemma synthetic_row_keys (p row : value) :
  synthetic_row p = Ok row -> keys row = row_columns.
Proof.
  unfold synthetic_row, get_prop. destruct (nullish p); [discriminate|].
  cbn [obind]. now intros [= <-].
Qed.

Lemma map_outcome_Forall (f : value -> outcome value) (P : value -> Prop)
      (l rows : list value) :
  (forall x y, f x = Ok y -> P y) ->
  map_outcome f l = Ok rows ->
  Forall P rows /\ List.length rows = List.length l.
Proof.
  intros Hf. revert rows. induction l as [|x rest IH]; intros rows; simpl.
  - intros [= <-]. split; [constructor | reflexivity].
  - destruct (f x) as [y|e] eqn:Hx; [|discriminate]. cbn [obind].
    destruct (map_outcome f rest) as [ys|e]; [|discriminate]. cbn [obind].
    intros [= <-]. destruct (IH ys eq_refl) as [Hall Hlen].
    split; [constructor; eauto | simpl; now rewrite Hlen].
Qed.

(** X14: generate-synthetic writes to the store only after the gateway
    answered successfully with a tool call whose arguments hold an array of
    patients; it writes to the table "patients" only, one row per element of
    the array, and every row has exactly the twelve columns of the table,
    whatever other fields the model returned. *)
Theorem insert_only_after_tool_call
    (JSON_parse : string -> outcome value) (w : world)
    (table : string) (rows : list value) :
  In (EInsert table rows) (trace (handleGenerateSynthetic JSON_parse w)) ->
  table = "patients"
  /\ Forall (fun row => keys row = row_columns) rows
  /\ exists r answer toolCall args ps,
       fetch w (ai_request w (user_message (VStr synthetic_prompt))
                           synthetic_tools (forced "synthetic_patients"))
       = inr r
       /\ ok r = true
       /\ JSON_parse (text r) = Ok answer
       /\ first_tool_call answer = Ok toolCall
       /\ truthy toolCall = true
       /\ tool_arguments JSON_parse toolCall = Ok args
       /\ prop args "patients" = VArr ps
       /\ List.length rows = List.length ps.
Proof.
  unfold handleGenerateSynthetic. rewrite trace_bind, callAI_eq. cbv zeta.
  destruct (fetch w _) as [e|r] eqn:Hf; [intros [[=]|[]]|].
  destruct (ok r) eqn:Hok; [|intros [[=]|[[=]|[]]]].
  cbn [trace result fst snd app].
  destruct (JSON_parse (text r)) as [answer|e] eqn:Hj; [|intros [[=]|[]]].
  destruct (first_tool_call answer) as [tc|e] eqn:Htc; [|intros [[=]|[]]].
  rewrite bind_lift_Ok.
  destruct (truthy tc) eqn:Ht; cbn [negb]; [|intros [[=]|[]]].
  destruct (tool_arguments JSON_parse tc) as [args|e] eqn:Hargs;
    [|intros [[=]|[]]].
  rewrite bind_lift_Ok. unfold destructure.
  destruct (nullish args) eqn:Hn; [intros [[=]|[]]|].
  rewrite bind_lift_Ok.
  destruct (prop args "patients") as [| |b|n|s|ps|fields] eqn:Hps;
    cbn [call_map]; try (intros [[=]|[]]).
  destruct (map_outcome synthetic_row ps) as [rows'|e] eqn:Hrows;
    [|intros [[=]|[]]].
  rewrite bind_lift_Ok, trace_bind. cbn [emit trace result fst snd app].
  intros [[=]|[Hin|Hin]].
  - injection Hin as <- <-.
    destruct (map_outcome_Forall synthetic_row
                (fun row => keys row = row_columns) ps rows'
                synthetic_row_keys Hrows) as [Hall Hlen].
    split; [reflexivity|]. split; [exact Hall|].
    exists r, answer, tc, args, ps. repeat split; assumption.
  - destruct (db_insert w "patients" rows'); [destruct Hin|].
    destruct (get_prop (VArr ps) "length"); destruct Hin.
Qed.

Lemma insert_only_after_tool_call_witness :
  Forall (fun row => keys row = row_columns)
         (match map_outcome synthetic_row sample_patients with
          | Ok rows => rows
          | Throw _ => []
          end).
Proof.
  refine (proj1 (proj2 (insert_only_after_tool_call (table_parse requests)
                          (constant_world 200 "completion") "patients"
                          _ _))).
  right. left. reflexivity.
Defined.

(** X15: a stored row is a fixed point of the normalisation: normalising
    it again gives the same row. *)
Theorem synthetic_row_idempotent (p row : value) :
  synthetic_row p = Ok row -> synthetic_row row = Ok row.
Proof.
  unfold synthetic_row, get_prop. destruct (nullish p); [discriminate|].
  cbn [obind]. intros [= <-].
  cbn [nullish obind prop lookup String.eqb Ascii.eqb Bool.eqb].
  unfold or_else.
  destruct (truthy (prop p "blood_pressure")) eqn:E1;
    destruct (truthy (prop p "heart_rate")) eqn:E2;
    destruct (truthy (prop p "temperature")) eqn:E3;
    destruct (truthy (prop p "pre_existing_conditions")) eqn:E4;
    cbn [truthy]; rewrite ?E1, ?E2, ?E3, ?E4; reflexivity.
Qed.

Lemma synthetic_row_idempotent_witness :
  synthetic_row
    (match synthetic_row (VObj [("age", VNum 71); ("heart_rate", VNum 0)]) with
     | Ok row => row
     | Throw _ => VNull
     end)
  = synthetic_row (VObj [("age", VNum 71); ("heart_rate", VNum 0)]).
Proof.
  apply (synthetic_row_idempotent
           (VObj [("age", VNum 71); ("heart_rate", VNum 0)])).
  reflexivity.
Defined.

(** * Further properties: the encoded document *)

Lemma b64_char_length (n : N) :
  (n < 64)%N -> String.length (b64_char n) = 1%nat.
Proof.
  intros H. unfold b64_char.
  assert (Hk : (N.to_nat n < 64)%nat) by lia.
  revert Hk. generalize (N.to_nat n) as k. intros k.
  do 64 (destruct k as [|k]; [reflexivity|]). lia.
Qed.

Lemma lor_lt_64 (a b : N) : (a < 64 -> b < 64 -> N.lor a b < 64)%N.
Proof.
  intros Ha Hb.
  destruct (N.eq_dec (N.lor a b) 0) as [->|Hz]; [reflexivity|].
  change 64%N with (2 ^ 6)%N. apply N.log2_lt_pow2; [lia|].
  rewrite N.log2_lor.
  assert (Hl : forall x, (x < 64 -> N.log2 x < 6)%N).
  { intros x Hx. destruct (N.eq_dec x 0) as [->|Hx0]; [reflexivity|].
    apply N.log2_lt_pow2; [lia | exact Hx]. }
  apply N.max_lub_lt; auto.
Qed.

Lemma shiftr_lt (x : N) (k : N) (bound : N) :
  (x < bound * 2 ^ k -> N.shiftr x k < bound)%N.
Proof.
  intros H. rewrite N.shiftr_div_pow2.
  apply N.Div0.div_lt_upper_bound. lia.
Qed.

Lemma land_shiftl_lt (x : N) (bits k : N) :
  (N.shiftl (N.land x (N.ones bits)) k < 2 ^ bits * 2 ^ k)%N.
Proof.
  rewrite N.land_ones, N.shiftl_mul_pow2.
  apply N.mul_lt_mono_pos_r.
  - apply N.neq_0_lt_0, N.pow_nonzero. discriminate.
  - apply N.mod_lt, N.pow_nonzero. discriminate.
Qed.

Lemma append_length4 (a b c d rest : string) :
  String.length a = 1%nat -> String.length b = 1%nat ->
  String.length c = 1%nat -> String.length d = 1%nat ->
  String.length (a ++ b ++ c ++ d ++ rest) = (4 + String.length rest)%nat.
Proof. intros Ha Hb Hc Hd. rewrite !append_length. lia. Qed.

(** X16: the base64 text of [n] bytes has [4 * ceil(n / 3)] characters: the
    encoding pads the last group to four characters. *)
Theorem btoa_length (s : string) :
  String.length (btoa s) = (4 * ((String.length s + 2) / 3))%nat.
Proof.
  assert (Hbyte : forall a, (N_of_ascii a < 256)%N) by apply N_ascii_bounded.
  assert (H1 : forall a, String.length (b64_char (N.shiftr (N_of_ascii a) 2))
                         = 1%nat).
  { intros a. apply b64_char_length, (shiftr_lt _ 2 64). apply Hbyte. }
  assert (H2 : forall a b,
     String.length (b64_char (N.lor (N.shiftl (N.land (N_of_ascii a) 3) 4)
                                    (N.shiftr (N_of_ascii b) 4))) = 1%nat).
  { intros a b. apply b64_char_length, lor_lt_64.
    - apply (land_shiftl_lt _ 2 4).
    - apply N.lt_trans with 16%N; [|reflexivity].
      apply (shiftr_lt _ 4 16), Hbyte. }
  assert (H3 : forall b c,
     String.length (b64_char (N.lor (N.shiftl (N.land (N_of_ascii b) 15) 2)
                                    (N.shiftr (N_of_ascii c) 6))) = 1%nat).
  { intros b c. apply b64_char_length, lor_lt_64.
    - apply (land_shiftl_lt _ 4 2).
    - apply N.lt_trans with 4%N; [|reflexivity].
      apply (shiftr_lt _ 6 4), Hbyte. }
  assert (H4 : forall c, String.length (b64_char (N.land (N_of_ascii c) 63))
                         = 1%nat).
  { intros c. apply b64_char_length. change 63%N with (N.ones 6).
    rewrite N.land_ones. apply N.mod_lt. discriminate. }
  assert (H5 : forall a,
     String.length (b64_char (N.shiftl (N.land (N_of_ascii a) 3) 4)) = 1%nat).
  { intros a. apply b64_char_length, (land_shiftl_lt _ 2 4). }
  assert (H6 : forall b,
     String.length (b64_char (N.shiftl (N.land (N_of_ascii b) 15) 2)) = 1%nat).
  { intros b. apply b64_char_length, (land_shiftl_lt _ 4 2). }
  assert (Hgen : forall n s, (String.length s <= n)%nat ->
     String.length (btoa s) = (4 * ((String.length s + 2) / 3))%nat).
  { clear s. induction n as [|n IH]; intros s Hlen.
    - destruct s; [reflexivity | simpl in Hlen; lia].
    - destruct s as [|a [|b [|c rest]]].
      + reflexivity.
      + cbn [btoa]. cbv zeta. rewrite !append_length, H1, H5. reflexivity.
      + cbn [btoa]. cbv zeta. rewrite !append_length, H1, H2, H6. reflexivity.
      + cbn [btoa]. cbv zeta.
        rewrite (append_length4 _ _ _ _ _ (H1 a) (H2 a b) (H3 b c) (H4 c)).
        rewrite IH by (simpl in Hlen; lia).
        cbn [String.length].
        replace (S (S (S (String.length rest))) + 2)%nat
          with (String.length rest + 2 + 1 * 3)%nat by lia.
        rewrite Nat.div_add by discriminate. lia. }
  apply (Hgen (String.length s)). lia.
Qed.

(** * Further properties: generated records that cannot be stored *)

Lemma synthetic_row_nullish (p : value) :
  nullish p = true ->
  synthetic_row p
  = Throw (TypeError ("Cannot read properties of " ++ typeName p
                        ++ " (reading 'age')")).
Proof. intros Hn. unfold synthetic_row, get_prop. now rewrite Hn. Qed.

Lemma map_synthetic_row_nullish (ps : list value) :
  Exists (fun p => nullish p = true) ps ->
  exists p, In p ps
    /\ nullish p = true
    /\ map_outcome synthetic_row ps
       = Throw (TypeError ("Cannot read properties of " ++ typeName p
                             ++ " (reading 'age')")).
Proof.
  induction ps as [|x rest IH]; intros H; [inversion H|].
  destruct (nullish x) eqn:Hx.
  - exists x. split; [now left|]. split; [exact Hx|].
    simpl. now rewrite (synthetic_row_nullish x Hx).
  - assert (Hrest : Exists (fun p => nullish p = true) rest).
    { inversion H; subst; [congruence | assumption]. }
    destruct (IH Hrest) as [p [Hin [Hp Hmap]]].
    exists p. split; [now right|]. split; [exact Hp|].
    simpl. destruct (synthetic_row_ok x Hx) as [row [-> _]].
    cbn [obind]. now rewrite Hmap.
Qed.

(** X17: when an element of the generated array is null, generate-synthetic
    inserts nothing: reading the age of that element throws, and the
    response to that error has status 500. *)
Theorem null_patient_stops_insert
    (JSON_parse : string -> outcome value) (w : world)
    (answer args : value) (ps : list value) :
  (forall fr, exists r,
      fetch w fr = inr r /\ ok r = true /\ JSON_parse (text r) = Ok answer) ->
  nullish answer = false ->
  truthy (tool_call answer) = true ->
  tool_arguments JSON_parse (tool_call answer) = Ok args ->
  prop args "patients" = VArr ps ->
  Exists (fun p => nullish p = true) ps ->
  exists e,
    handleGenerateSynthetic JSON_parse w
    = ([EFetch (ai_request w (user_message (VStr synthetic_prompt))
                           synthetic_tools (forced "synthetic_patients"))],
       Throw e)
    /\ resp_status (error_response e) = 500.
Proof.
  intros Hgw Hn Hcall Hargs Hps Hex.
  destruct (map_synthetic_row_nullish ps Hex) as [p [_ [Hp Hmap]]].
  eexists. split.
  - unfold handleGenerateSynthetic.
    rewrite (callAI_answer JSON_parse w answer Hgw). cbn [bind].
    rewrite (first_tool_call_eq answer Hn), bind_lift_Ok, Hcall. cbn [negb].
    rewrite Hargs, bind_lift_Ok.
    assert (Hna : nullish args = false)
      by (destruct args; now try discriminate).
    unfold destructure. rewrite Hna, bind_lift_Ok, Hps.
    cbn [call_map]. rewrite Hmap. reflexivity.
  - destruct p; try discriminate Hp; reflexivity.
Qed.

Lemma null_patient_stops_insert_witness :
  exists e,
    handleGenerateSynthetic
      (table_parse [("completion", sample_completion);
                    ("arguments", VObj [("patients", VArr [VNull])])])
      (constant_world 200 "completion")
    = ([EFetch (ai_request (constant_world 200 "completion")
                           (user_message (VStr synthetic_prompt))
                           synthetic_tools (forced "synthetic_patients"))],
       Throw e)
    /\ resp_status (error_response e) = 500.
Proof.
  apply (null_patient_stops_insert
           (table_parse [("completion", sample_completion);
                         ("arguments", VObj [("patients", VArr [VNull])])])
           (constant_world 200 "completion")
           sample_completion (VObj [("patients", VArr [VNull])]) [VNull]).
  - intros fr. exists {| status := 200; text := "completion" |}.
    split; [reflexivity|]. split; reflexivity.
  - reflexivity.
  - reflexivity.
  - reflexivity.
  - reflexivity.
  - left. reflexivity.
Defined.

(** X18: when the arguments of the tool call hold no array under
    [patients], generate-synthetic inserts nothing and throws a TypeError,
    which the service answers with status 500. *)
Theorem patients_must_be_array
    (JSON_parse : string -> outcome value) (w : world) (answer args : value) :
  (forall fr, exists r,
      fetch w fr = inr r /\ ok r = true /\ JSON_parse (text r) = Ok answer) ->
  nullish answer = false ->
  truthy (tool_call answer) = true ->
  tool_arguments JSON_parse (tool_call answer) = Ok args ->
  (forall ps, prop args "patients" <> VArr ps) ->
  exists msg,
    handleGenerateSynthetic JSON_parse w
    = ([EFetch (ai_request w (user_message (VStr synthetic_prompt))
                           synthetic_tools (forced "synthetic_patients"))],
       Throw (TypeError msg))
    /\ resp_status (error_response (TypeError msg)) = 500.
Proof.
  intros Hgw Hn Hcall Hargs Hps.
  assert (Hrun : forall o,
    (patients <~ destructure "JSON.parse(...)" args "patients" ;;
     call_map "patients" patients synthetic_row) = Throw o ->
    handleGenerateSynthetic JSON_parse w
    = ([EFetch (ai_request w (user_message (VStr synthetic_prompt))
                           synthetic_tools (forced "synthetic_patients"))],
       Throw o)).
  { intros o Ho. unfold handleGenerateSynthetic.
    rewrite (callAI_answer JSON_parse w answer Hgw). cbn [bind].
    rewrite (first_tool_call_eq answer Hn), bind_lift_Ok, Hcall. cbn [negb].
    rewrite Hargs, bind_lift_Ok.
    destruct (destructure "JSON.parse(...)" args "patients") as [ps|e];
      cbn [obind] in Ho.
    - rewrite bind_lift_Ok, Ho. reflexivity.
    - now injection Ho as ->. }
  unfold destructure in Hrun.
  destruct (nullish args) eqn:Hna.
  - destruct args; try discriminate Hna;
      (eexists; split; [apply Hrun; reflexivity | reflexivity]).
  - cbn [obind] in Hrun.
    destruct (prop args "patients") as [| |b|n|s|ps|fields] eqn:Hp;
      try (now destruct (Hps ps));
      (eexists; split; [apply Hrun; reflexivity | reflexivity]).
Qed.

Lemma patients_must_be_array_witness :
  exists msg,
    handleGenerateSynthetic
      (table_parse [("completion", sample_completion);
                    ("arguments", VObj [])])
      (constant_world 200 "completion")
    = ([EFetch (ai_request (constant_world 200 "completion")
                           (user_message (VStr synthetic_prompt))
                           synthetic_tools (forced "synthetic_patients"))],
       Throw (TypeError msg))
    /\ resp_status (error_response (TypeError msg)) = 500.
Proof.
  apply (patients_must_be_array
           (table_parse [("completion", sample_completion);
                         ("arguments", VObj [])])
           (constant_world 200 "completion")
           sample_completion (VObj [])).
  - intros fr. exists {| status := 200; text := "completion" |}.
    split; [reflexivity|]. split; reflexivity.
  - reflexivity.
  - reflexivity.
  - reflexivity.
  - intros ps. discriminate.
Defined.
